(** * NovelAgent: scheduler, bounded memory, context tree and similarity store

    A shallow embedding of the core of [novelagent]:
    - [task_manager.py]  (class [TaskManager]),
    - [llm_interface.py] (class [LLMInterface]),
    - [vector_db.py]     (class [VectorDB]),
    - [memory.py]        (class [Memory]),
    - [thought_atom.py]  (classes [ThoughtAtom] and [ThoughtTree]),
    - [base_agent.py]    (class [BaseAgent]),
    - [agent_coordinator.py] (class [AgentCoordinator]: the registry, message
      passing and broadcast),
    followed by the properties of the design document that concern them and
    by further properties of the code.

    Conventions of the embedding.
    - A Python [Dict[str, Any]] is an insertion-ordered association list of
      [pyval]s; [int] is [Z]; [float] is an exact rational [Q] (no property
      below depends on rounding).
    - A method that mutates [self] returns the new object together with its
      outcome, so that a mutation performed before an exception is kept.
    - The services outside the repository (litellm, the Ollama HTTP endpoint)
      are the fields of a [Services] record; their answers may depend on the
      history of calls, which is recorded in the [World] next to what was
      printed. The table behind a PostgreSQL connection is part of the store.
    - What the code takes from Python itself ([str], [repr], [json], string
      methods) is the [Builtins] record. *)

From Stdlib Require Import ZArith QArith Ascii.
From stdpp Require Import base list strings pretty.

Open Scope Z_scope.
Set Warnings "-register-all".

(** ** Python values *)

Module Py.

Inductive pyval : Type :=
| PNone
| PBool (b : bool)
| PInt (z : Z)
| PFloat (q : Q)
| PStr (s : string)
| PList (l : list pyval)
| PDict (d : list (string * pyval)).

(** [Dict[str, Any]], in insertion order, keys pairwise distinct. *)
Definition dict : Type := list (string * pyval).

(** [d.get(k)]: [None] of Python is the [None] of [option]. *)
Fixpoint dict_get (d : dict) (k : string) : option pyval :=
  match d with
  | [] => None
  | (k', v) :: d' => if String.eqb k' k then Some v else dict_get d' k
  end.

(** [d.get(k, dflt)] *)
Definition dict_get_default (d : dict) (k : string) (dflt : pyval) : pyval :=
  default dflt (dict_get d k).

(** [d[k] = v]: an existing key keeps its position, a new one goes last. *)
Fixpoint dict_set (d : dict) (k : string) (v : pyval) : dict :=
  match d with
  | [] => [(k, v)]
  | (k', v') :: d' =>
      if String.eqb k' k then (k', v) :: d' else (k', v') :: dict_set d' k v
  end.

(** [{**d, **e}] *)
Definition dict_update (d e : dict) : dict :=
  fold_left (fun acc kv => dict_set acc kv.1 kv.2) e d.

(** [v == s] for a string literal [s]. *)
Definition eq_str (v : option pyval) (s : string) : bool :=
  match v with
  | Some (PStr s') => String.eqb s' s
  | _ => false
  end.

(** Truth value of an object, as tested by [if x], [not x] and [x or y]. *)
Definition truthy (v : pyval) : bool :=
  match v with
  | PNone => false
  | PBool b => b
  | PInt z => negb (z =? 0)
  | PFloat q => negb (Qeq_bool q 0)
  | PStr s => negb (String.eqb s "")
  | PList l => match l with [] => false | _ => true end
  | PDict d => match d with [] => false | _ => true end
  end.

(** [l[start:]] *)
Definition slice_from {A} (l : list A) (start : Z) : list A :=
  let len := Z.of_nat (length l) in
  let lo := if start <? 0 then Z.max 0 (start + len) else Z.min start len in
  drop (Z.to_nat lo) l.

(** [l.pop(0)]: the removed head and the rest; [None] stands for the
    [IndexError] on an empty list. *)
Definition pop0 {A} (l : list A) : option (A * list A) :=
  match l with
  | [] => None
  | x :: l' => Some (x, l')
  end.

(** [sep.join(parts)] *)
Fixpoint join (sep : string) (parts : list string) : string :=
  match parts with
  | [] => ""
  | [p] => p
  | p :: ps => p +:+ sep +:+ join sep ps
  end.

(** [s.split(c)] for a one-character separator. *)
Fixpoint split_on (c : ascii) (s : string) : list string :=
  match s with
  | EmptyString => [EmptyString]
  | String a s' =>
      if Ascii.eqb a c then EmptyString :: split_on c s'
      else match split_on c s' with
           | [] => [String a EmptyString]
           | p :: ps => String a p :: ps
           end
  end.

(** A line break. *)
Definition nl : string := String (ascii_of_nat 10) EmptyString.

(** A double quote. *)
Definition quote : string := String (ascii_of_nat 34) EmptyString.

(** [needle in hay], on strings. *)
Fixpoint is_substring (needle hay : string) : bool :=
  String.prefix needle hay ||
  match hay with
  | EmptyString => false
  | String _ hay' => is_substring needle hay'
  end.

(** The value of a number, [True] and [False] being 1 and 0. *)
Definition number (v : pyval) : option Q :=
  match v with
  | PBool b => Some (if b then 1%Q else 0%Q)
  | PInt z => Some (inject_Z z)
  | PFloat q => Some q
  | _ => None
  end.

(** [a == b] *)
Fixpoint py_eq (a b : pyval) {struct a} : bool :=
  match a, b with
  | PNone, PNone => true
  | PStr s, PStr s' => String.eqb s s'
  | PList l, PList l' =>
      (fix eq_list (l l' : list pyval) {struct l} : bool :=
         match l, l' with
         | [], [] => true
         | x :: xs, y :: ys => py_eq x y && eq_list xs ys
         | _, _ => false
         end) l l'
  | PDict d, PDict d' =>
      Nat.eqb (length d) (length d') &&
      (fix eq_items (d : list (string * pyval)) {struct d} : bool :=
         match d with
         | [] => true
         | (k, v) :: rest =>
             match dict_get d' k with
             | Some v' => py_eq v v'
             | None => false
             end && eq_items rest
         end) d
  | (PBool _ | PInt _ | PFloat _), (PBool _ | PInt _ | PFloat _) =>
      match number a, number b with
      | Some x, Some y => Qeq_bool x y
      | _, _ => false
      end
  | _, _ => false
  end.

(** [type(v).__name__] *)
Definition type_name (v : pyval) : string :=
  match v with
  | PNone => "NoneType"
  | PBool _ => "bool"
  | PInt _ => "int"
  | PFloat _ => "float"
  | PStr _ => "str"
  | PList _ => "list"
  | PDict _ => "dict"
  end.

End Py.

(** ** Exceptions, the outside world and the services *)

Module Effects.
Import Py.

(** A raised exception: its class and [str(e)]. *)
Record exn : Type := Exception { exn_class : string; exn_str : string }.

Inductive outcome (A : Type) : Type :=
| Return (a : A)
| Raise (e : exn).
Arguments Return {A} a.
Arguments Raise {A} e.

(** The classes of Python and its standard library that derive from
    [BaseException] and not from [Exception]. *)
Definition outside_Exception : list string :=
  ["BaseException"; "BaseExceptionGroup"; "GeneratorExit"; "KeyboardInterrupt";
   "SystemExit"; "CancelledError"].

(** [isinstance(e, Exception)]: what a handler [except Exception] catches. *)
Definition is_Exception (e : exn) : bool :=
  negb (existsb (String.eqb (exn_class e)) outside_Exception).

(** The keyword arguments of [litellm.completion]. *)
Record CompletionRequest : Type := {
  req_model : pyval;
  req_messages : list (string * string);   (* role, content *)
  req_temperature : Q;
  req_max_tokens : pyval
}.

Inductive Event : Type :=
| EvCompletion (r : CompletionRequest)
| EvOllamaEmbeddings (model_name : string) (prompt : pyval)
| EvLitellmEmbedding (model : string) (input : pyval).

Record World : Type := {
  calls : list Event;      (* calls made to the services, oldest first *)
  stdout : list string     (* lines printed, oldest first *)
}.

Definition record_call (ev : Event) (w : World) : World :=
  {| calls := calls w ++ [ev]; stdout := stdout w |}.

Definition print (line : string) (w : World) : World :=
  {| calls := calls w; stdout := stdout w ++ [line] |}.

(** What lies outside the repository.
    - [litellm_completion h r]: [litellm.completion] applied to [r], followed by
      [.choices[0].message.content];
    - [ollama_embeddings h m p]: the POST to [/api/embeddings] followed by
      [.json()["embedding"]];
    - [litellm_embedding h m x]: [litellm.embedding(model=m, input=x)]
      followed by [.data[0].embedding].
    [h] is the list of calls made before. *)
Record Services : Type := {
  litellm_completion : list Event -> CompletionRequest -> outcome string;
  ollama_embeddings : list Event -> string -> pyval -> outcome (list Q);
  litellm_embedding : list Event -> string -> pyval -> outcome (list Q)
}.

(** [a / b] on integers: a float, or [ZeroDivisionError]. *)
Definition truediv (a b : Z) : outcome Q :=
  if b =? 0 then
    Raise {| exn_class := "ZeroDivisionError"; exn_str := "division by zero" |}
  else Return (inject_Z a / inject_Z b)%Q.

(** Computations that talk to the world. *)
Definition M (A : Type) : Type := World -> A * World.

Definition ret {A} (a : A) : M A := fun w => (a, w).

Definition bind {A B} (m : M A) (k : A -> M B) : M B :=
  fun w => let (a, w') := m w in k a w'.

Definition call_completion (svc : Services) (r : CompletionRequest)
  : M (outcome string) :=
  fun w => (litellm_completion svc (calls w) r, record_call (EvCompletion r) w).

Definition call_ollama (svc : Services) (model_name : string) (prompt : pyval)
  : M (outcome (list Q)) :=
  fun w => (ollama_embeddings svc (calls w) model_name prompt,
            record_call (EvOllamaEmbeddings model_name prompt) w).

Definition call_litellm_embedding (svc : Services) (model : string) (input : pyval)
  : M (outcome (list Q)) :=
  fun w => (litellm_embedding svc (calls w) model input,
            record_call (EvLitellmEmbedding model input) w).

Definition say (line : string) : M unit := fun w => (tt, print line w).

End Effects.

Notation "'let*' x ':=' m 'in' k" := (Effects.bind m (fun x => k))
  (at level 10, x name, m at level 100, k at level 200).

Module Comprehension.
Import Effects.

(** [[f(x) for x in l]] where [f] talks to the world: the calls are made
    from left to right and the first exception ends the loop. *)
Definition for_each {A B} (f : A -> M (outcome B)) : list A -> M (outcome (list B)) :=
  fix go (l : list A) : M (outcome (list B)) :=
    match l with
    | [] => ret (Return [])
    | x :: l' =>
        let* r := f x in
        match r with
        | Raise e => ret (Raise e)
        | Return y =>
            let* rs := go l' in
            match rs with
            | Raise e => ret (Raise e)
            | Return ys => ret (Return (y :: ys))
            end
        end
    end.

End Comprehension.

(** ** What the code takes from Python and its standard library *)

Module Builtins.
Import Py Effects.

(** - [str x]: [str(x)], the text an f-string splices in for [x];
    - [repr x]: [repr(x)];
    - [lower s]: [s.lower()];  [strip s]: [s.strip()];
    - [chars s]: the characters of [s], as iterating over it yields them;
    - [json_dumps v]: [json.dumps(v)];
    - [json_loads s]: [json.loads(s)], which raises [JSONDecodeError] on
      text that is not JSON. *)
Record t : Type := {
  str : pyval -> string;
  repr : pyval -> string;
  lower : string -> string;
  strip : string -> string;
  chars : string -> list string;
  json_dumps : pyval -> string;
  json_loads : string -> outcome pyval
}.

Definition type_error (msg : string) : exn :=
  {| exn_class := "TypeError"; exn_str := msg |}.

(** [isinstance(e, json.JSONDecodeError)] *)
Definition is_json_decode_error (e : exn) : bool :=
  String.eqb (exn_class e) "JSONDecodeError".

(** [sep.join(v)] for an object [v]: the items must be strings. *)
Definition join_object (bi : t) (sep : string) (v : pyval) : outcome string :=
  let fix items (i : nat) (l : list pyval) : outcome (list string) :=
    match l with
    | [] => Return []
    | PStr s :: l' =>
        match items (S i) l' with
        | Return ss => Return (s :: ss)
        | Raise e => Raise e
        end
    | x :: _ =>
        Raise (type_error ("sequence item " +:+ pretty i +:+
                           ": expected str instance, " +:+ type_name x +:+ " found"))
    end in
  match v with
  | PList l =>
      match items 0%nat l with
      | Return ss => Return (join sep ss)
      | Raise e => Raise e
      end
  | PStr s => Return (join sep (chars bi s))
  | PDict d => Return (join sep d.*1)
  | _ => Raise (type_error "can only join an iterable")
  end.

End Builtins.

(** ** llm_interface.py *)

Module LLMInterface.
Import Py Effects.

Record t : Type := { config : dict }.

Section Methods.
Variable svc : Services.

(** The keyword arguments that [generate] passes to [litellm.completion]. *)
Definition completion_request (self : t) (prompt : string)
    (system_message : option string) (temperature : Q) : CompletionRequest :=
  {| req_model := dict_get_default (config self) "model" (PStr "gpt-3.5-turbo");
     req_messages :=
       [ ("system",
          match system_message with
          | Some s => if String.eqb s "" then "You are a helpful assistant." else s
          | None => "You are a helpful assistant."
          end);
         ("user", prompt) ];
     req_temperature := temperature;
     req_max_tokens := dict_get_default (config self) "max_tokens" (PInt 1000) |}.

(** [LLMInterface.generate(prompt, system_message=None, temperature=0.7)].
    The result type leaves room for an exception that reaches the caller. *)
Definition generate (self : t) (prompt : string) (system_message : option string)
    (temperature : Q) : M (outcome string) :=
  let* r := call_completion svc
              (completion_request self prompt system_message temperature) in
  match r with
  | Return content => ret (Return content)
  | Raise e =>
      if is_Exception e then
        let* _ := say ("Error generating text: " +:+ exn_str e) in
        ret (Return ("Error generating text: " +:+ exn_str e))
      else ret (Raise e)
  end.

End Methods.

(** Default value of [temperature]. *)
Definition default_temperature : Q := 7 # 10.


Section OtherMethods.
Variable svc : Services.

(** The keyword arguments that [chat] passes to [litellm.completion]. *)
Definition chat_request (self : t) (messages : list (string * string))
    (temperature : Q) : CompletionRequest :=
  {| req_model := dict_get_default (config self) "model" (PStr "gpt-3.5-turbo");
     req_messages := messages;
     req_temperature := temperature;
     req_max_tokens := dict_get_default (config self) "max_tokens" (PInt 1000) |}.

(** [LLMInterface.chat(messages, temperature=0.7)] *)
Definition chat (self : t) (messages : list (string * string)) (temperature : Q)
  : M (outcome string) :=
  let* r := call_completion svc (chat_request self messages temperature) in
  match r with
  | Return content => ret (Return content)
  | Raise e =>
      if is_Exception e then
        let* _ := say ("Error in chat: " +:+ exn_str e) in
        ret (Return ("Error in chat: " +:+ exn_str e))
      else ret (Raise e)
  end.

End OtherMethods.





End LLMInterface.

(** ** task_manager.py *)

Module TaskManager.
Import Py Effects.

Record t : Type := {
  tasks : list dict;
  llm_interface : LLMInterface.t
}.

(** [TaskManager(llm_config)] *)
Definition init (llm_config : dict) : t :=
  {| tasks := []; llm_interface := {| LLMInterface.config := llm_config |} |}.

(** [add_task(task)]: the new manager and the outcome of the call. *)
Definition add_task (self : t) (task : dict) : t * outcome unit :=
  ({| tasks := tasks self ++ [task]; llm_interface := llm_interface self |},
   Return tt).

(** [task.get("status") == "completed"] *)
Definition is_completed (task : dict) : bool :=
  eq_str (dict_get task "status") "completed".

Definition get_pending_tasks (self : t) : list dict :=
  filter (fun task => is_completed task = false) (tasks self).

Definition get_completed_tasks (self : t) : list dict :=
  filter (fun task => is_completed task = true) (tasks self).

Fixpoint find_task (l : list dict) (task_id : string) : option dict :=
  match l with
  | [] => None
  | task :: l' =>
      if eq_str (dict_get task "id") task_id then Some task
      else find_task l' task_id
  end.

Definition get_task_by_id (self : t) (task_id : string) : option dict :=
  find_task (tasks self) task_id.

Record Progress : Type := {
  total : Z;
  completed : Z;
  pending : Z;
  progress_percentage : Q
}.

(** [TaskManager.monitor_progress()]. The percentage is the exact value of
    [completed / total * 100], which the code computes in floating point. *)
Definition monitor_progress (self : t) : outcome Progress :=
  let total := Z.of_nat (length (tasks self)) in
  let completed := Z.of_nat (length (get_completed_tasks self)) in
  let pending := total - completed in
  let percentage :=
    if 0 <? total then
      match truediv completed total with
      | Return ratio => Return (ratio * 100)%Q
      | Raise e => Raise e
      end
    else Return 0%Q in
  match percentage with
  | Return p =>
      Return {| total := total; completed := completed; pending := pending;
                progress_percentage := p |}
  | Raise e => Raise e
  end.

(** The ids listed under ["dependencies"] ([task.get('dependencies', [])]). *)
Definition dependencies (task : dict) : list string :=
  match dict_get task "dependencies" with
  | Some (PList l) =>
      omap (fun v => match v with PStr s => Some s | _ => None end) l
  | _ => []
  end.

(** Every dependency of [task] names a task of the manager that is completed. *)
Definition dependencies_completed (self : t) (task : dict) : bool :=
  forallb (fun d => match get_task_by_id self d with
                    | Some dep => is_completed dep
                    | None => false
                    end)
          (dependencies task).








(** The f-string of [assign_task]; the dependencies are joined last. *)
Definition assign_context (bi : Builtins.t) (task : dict) : outcome string :=
  match Builtins.join_object bi ", " (dict_get_default task "dependencies" (PList [])) with
  | Raise e => Raise e
  | Return deps =>
      Return (nl +:+
        "        Task: " +:+ Builtins.str bi (dict_get_default task "description" (PStr "")) +:+ nl +:+
        "        " +:+ nl +:+
        "        Additional Information:" +:+ nl +:+
        "        " +:+ Builtins.str bi (dict_get_default task "additional_info" (PStr "")) +:+ nl +:+
        "        " +:+ nl +:+
        "        Dependencies:" +:+ nl +:+
        "        " +:+ deps +:+ nl +:+
        "        " +:+ nl +:+
        "        Please complete this task." +:+ nl +:+
        "        ")
  end.

Section Assign.
(** An agent is any object with a [run] method; running it may change it. *)
Context {Agent : Type} (run : Agent -> string -> M (Agent * outcome string)).

(** [TaskManager.assign_task(task, agent)]: the task and the agent afterwards,
    and what the call returns. *)
Definition assign_task (bi : Builtins.t) (task : dict) (agent : Agent)
  : M (dict * Agent * outcome string) :=
  match assign_context bi task with
  | Raise e => ret (task, agent, Raise e)
  | Return context =>
      let* ar := run agent context in
      match ar.2 with
      | Raise e => ret (task, ar.1, Raise e)
      | Return result =>
          ret (dict_set (dict_set task "status" (PStr "completed"))
                        "result" (PStr result),
               ar.1, Return result)
      end
  end.

(** [assign_task] called with the [i]-th task of the manager: the dictionary
    in the list is the one that is updated. *)
Definition assign_task_at (bi : Builtins.t) (self : t) (i : nat) (agent : Agent)
  : M (t * Agent * outcome string) :=
  match tasks self !! i with
  | None => ret (self, agent, Raise {| exn_class := "IndexError";
                                        exn_str := "list index out of range" |})
  | Some task =>
      let* r := assign_task bi task agent in
      ret ({| tasks := <[i := r.1.1]> (tasks self);
              llm_interface := llm_interface self |}, r.1.2, r.2)
  end.

End Assign.

End TaskManager.

(** ** vector_db.py *)

Module VectorDB.
Import Py Effects.

(** A row of the table created by [_initialize_table]; the column
    [created_at] plays no part in any query and is left out. *)
Record Row : Type := {
  row_id : Z;
  row_content : pyval;
  row_embedding : list Q;
  row_metadata : dict
}.

(** The table behind an open connection: rows in insertion order and the
    next value of the [SERIAL] key. Every statement is taken to start in a
    transaction that has not failed. *)
Record Connection : Type := {
  table : list Row;
  next_id : Z
}.

Record t : Type := {
  connection : option Connection;
  embedding_model : string;
  table_name : string;
  dimension : Z
}.

(** The errors of the database. [exn_str] holds the first line of the
    engine's message, which goes on with the position in the statement. *)
Definition invalid_vector_literal : exn :=
  {| exn_class := "InvalidTextRepresentation";
     exn_str := "invalid input syntax for type vector: " +:+ quote +:+ "{}" +:+ quote |}.

Definition too_many_dimensions : exn :=
  {| exn_class := "ProgramLimitExceeded";
     exn_str := "vector cannot have more than 16000 dimensions" |}.

Definition wrong_dimensions (expected : Z) (given : nat) : exn :=
  {| exn_class := "DataException";
     exn_str := "expected " +:+ pretty expected +:+ " dimensions, not " +:+
                pretty given |}.

Definition no_distance_operator : exn :=
  {| exn_class := "UndefinedFunction";
     exn_str := "operator does not exist: vector <=> numeric[]" |}.

(** [INSERT INTO table (content, embedding, metadata) VALUES (%s, %s, %s)] and
    the commit, on a table whose column [embedding] is [VECTOR(dimension)].
    psycopg2 sends a list of floats as [ARRAY[...]], of type [numeric[]], and
    the empty list as the literal ['{}']. The engine takes the literal for a
    vector, which it is not; it casts the array to the column's type, which
    fails for more than 16000 numbers and for a length other than
    [dimension]. A statement that fails inserts nothing and draws no key.
    The row is kept as the values that were bound: the content, the embedding
    and the dictionary whose [json.dumps] went into the column [metadata]. *)
Definition insert_row (dimension : Z) (conn : Connection) (content : pyval)
    (embedding : list Q) (metadata : dict) : outcome Connection :=
  match embedding with
  | [] => Raise invalid_vector_literal
  | _ :: _ =>
      if 16000 <? Z.of_nat (length embedding) then Raise too_many_dimensions
      else if negb (Z.of_nat (length embedding) =? dimension) then
        Raise (wrong_dimensions dimension (length embedding))
      else
        Return {| table := table conn ++
                             [ {| row_id := next_id conn; row_content := content;
                                  row_embedding := embedding;
                                  row_metadata := metadata |} ];
                  next_id := next_id conn + 1 |}
  end.

(** A row of the answer to [SELECT content, metadata, distance]. *)
Definition Hit : Type := (pyval * dict * Q)%type.

(** [SELECT content, metadata, embedding <=> %s AS distance FROM table
     ORDER BY distance LIMIT %s] with the parameters [(q, n)]. psycopg2 sends
    the list [q] as [ARRAY[...]], of type [numeric[]], and the empty list as
    the literal ['{}']. pgvector defines [<=>] between two vectors and casts
    an array to a vector on assignment only: the engine finds no operator for
    [vector <=> numeric[]], and the literal it takes for a vector, which it
    is not. Either way the statement is rejected before a row is read,
    whatever the table holds and whatever [n] is. *)
Definition select_nearest (conn : Connection) (q : list Q) (n : Z)
  : outcome (list Hit) :=
  match q with
  | [] => Raise invalid_vector_literal
  | _ :: _ => Raise no_distance_operator
  end.

Section Methods.
Variable svc : Services.

(** [[0.0] * self.dimension] *)
Definition zero_vector (self : t) : list Q :=
  replicate (Z.to_nat (dimension self)) 0%Q.

(** [VectorDB.get_embedding(text)] *)
Definition get_embedding (self : t) (text : pyval) : M (outcome (list Q)) :=
  if String.prefix "ollama/" (embedding_model self) then
    let model_name := nth 1 (split_on "/" (embedding_model self)) "" in
    let* r := call_ollama svc model_name text in
    match r with
    | Return embedding => ret (Return embedding)
    | Raise e =>
        if is_Exception e then
          let* _ := say ("Error getting embedding from Ollama: " +:+ exn_str e) in
          ret (Return (zero_vector self))
        else ret (Raise e)
    end
  else
    let* r := call_litellm_embedding svc (embedding_model self) text in
    match r with
    | Return embedding => ret (Return embedding)
    | Raise e =>
        if is_Exception e then
          let* _ := say ("Error getting embedding from LiteLLM: " +:+ exn_str e) in
          ret (Return (zero_vector self))
        else ret (Raise e)
    end.

(** The embedding service that [get_embedding] calls for this store raises
    [e] when asked for [text] in the world [w]. *)
Definition embedding_call_fails (self : t) (text : pyval) (w : World) (e : exn)
  : Prop :=
  if String.prefix "ollama/" (embedding_model self)
  then ollama_embeddings svc (calls w)
         (nth 1 (split_on "/" (embedding_model self)) "") text = Raise e
  else litellm_embedding svc (calls w) (embedding_model self) text = Raise e.

(** [VectorDB.add(item)]: the store afterwards and what the call returns. *)
Definition add (self : t) (item : dict) : M (t * outcome bool) :=
  match connection self with
  | None => ret (self, Return false)
  | Some conn =>
      let content := dict_get_default item "content" (PStr "") in
      if negb (truthy content) then ret (self, Return false)
      else
        let* r := get_embedding self content in
        match r with
        | Raise e => ret (self, Raise e)
        | Return embedding =>
            let metadata :=
              filter (fun kv => String.eqb kv.1 "content" = false) item in
            match insert_row (dimension self) conn content embedding metadata with
            | Raise e => ret (self, Raise e)
            | Return conn' =>
                ret ({| connection := Some conn';
                        embedding_model := embedding_model self;
                        table_name := table_name self;
                        dimension := dimension self |},
                     Return true)
            end
        end
  end.

(** [json.loads(metadata_json) if metadata_json else {}], on the dictionary
    that [add] wrote to the column. *)
Definition read_metadata (metadata : dict) : dict :=
  match metadata with
  | [] => []
  | kv :: m => kv :: m
  end.

(** [{"content": content, **metadata, "distance": distance}] *)
Definition result_item (h : Hit) : dict :=
  dict_set (dict_update [("content", h.1.1)] (read_metadata h.1.2))
           "distance" (PFloat h.2).

(** [VectorDB.search(query, n=5)] *)
Definition search (self : t) (query : string) (n : Z) : M (outcome (list dict)) :=
  match connection self with
  | None => ret (Return [])
  | Some conn =>
      let* r := get_embedding self (PStr query) in
      match r with
      | Raise e => ret (Raise e)
      | Return query_embedding =>
          match select_nearest conn query_embedding n with
          | Raise e => ret (Raise e)
          | Return hits => ret (Return (map result_item hits))
          end
      end
  end.

End Methods.

(** Number of stored records. *)
Definition size (self : t) : nat :=
  match connection self with
  | Some conn => length (table conn)
  | None => 0%nat
  end.


(** [VectorDB.delete(item_id)] *)
Definition delete (self : t) (item_id : Z) : t * outcome bool :=
  match connection self with
  | None => (self, Return false)
  | Some conn =>
      ({| connection :=
            Some {| table := filter (fun r => row_id r <> item_id) (table conn);
                    next_id := next_id conn |};
          embedding_model := embedding_model self;
          table_name := table_name self;
          dimension := dimension self |},
       Return true)
  end.

(** [VectorDB.clear()]: [TRUNCATE TABLE] removes the rows and leaves the
    sequence of the key where it is. *)
Definition clear (self : t) : t * outcome bool :=
  match connection self with
  | None => (self, Return false)
  | Some conn =>
      ({| connection := Some {| table := []; next_id := next_id conn |};
          embedding_model := embedding_model self;
          table_name := table_name self;
          dimension := dimension self |},
       Return true)
  end.

(** [VectorDB.close()] *)
Definition close (self : t) : t :=
  {| connection := None;
     embedding_model := embedding_model self;
     table_name := table_name self;
     dimension := dimension self |}.

(** The keys of the rows are pairwise distinct and were all drawn from the
    sequence already. *)
Definition keys_fresh (self : t) : Prop :=
  match connection self with
  | None => True
  | Some conn =>
      NoDup (row_id <$> table conn)
      /\ Forall (fun r => row_id r < next_id conn) (table conn)
  end.

End VectorDB.

(** ** memory.py *)

Module Memory.
Import Py Effects.

Record t : Type := {
  short_term_memory : list dict;
  vector_db : option VectorDB.t;
  max_short_term_items : Z
}.

(** [Memory(vector_db_config, max_short_term_items)], with the store that
    [VectorDB(vector_db_config)] yields ([None] without a configuration). *)
Definition init (store : option VectorDB.t) (max_short_term_items : Z) : t :=
  {| short_term_memory := [];
     vector_db := store;
     max_short_term_items := max_short_term_items |}.

Definition default_max_short_term_items : Z := 100.

Section Methods.
Variable svc : Services.

(** [Memory.add(item, is_important=False)] *)
Definition add (self : t) (item : dict) (is_important : bool)
  : M (t * outcome unit) :=
  let appended := short_term_memory self ++ [item] in
  let popped :=
    if max_short_term_items self <? Z.of_nat (length appended) then
      match pop0 appended with
      | Some (_, rest) => Return rest
      | None => Raise {| exn_class := "IndexError"; exn_str := "pop from empty list" |}
      end
    else Return appended in
  match popped with
  | Raise e =>
      ret ({| short_term_memory := appended;
              vector_db := vector_db self;
              max_short_term_items := max_short_term_items self |}, Raise e)
  | Return buffer =>
      match (if is_important then vector_db self else None) with
      | Some store =>
          let* sr := VectorDB.add svc store item in
          ret ({| short_term_memory := buffer;
                  vector_db := Some sr.1;
                  max_short_term_items := max_short_term_items self |},
               match sr.2 with
               | Return _ => Return tt
               | Raise e => Raise e
               end)
      | None =>
          ret ({| short_term_memory := buffer;
                  vector_db := vector_db self;
                  max_short_term_items := max_short_term_items self |}, Return tt)
      end
  end.

(** A run of [add] calls, one after the other, whatever each call returns. *)
Fixpoint add_all (self : t) (reqs : list (dict * bool)) : M t :=
  match reqs with
  | [] => ret self
  | (item, is_important) :: reqs' =>
      let* r := add self item is_important in
      add_all r.1 reqs'
  end.

End Methods.

(** [Memory.get_recent(n=5)]: [self.short_term_memory[-n:]] *)
Definition get_recent (self : t) (n : Z) : list dict :=
  slice_from (short_term_memory self) (- n).


Section OtherMethods.
Variable svc : Services.
Variable bi : Builtins.t.

(** [query.lower() in json.dumps(item).lower()] *)
Definition matches (query : string) (item : dict) : bool :=
  is_substring (Builtins.lower bi query)
               (Builtins.lower bi (Builtins.json_dumps bi (PDict item))).

(** The loop of [search] over the short-term memory, [results] being what
    was collected so far. *)
Fixpoint scan (query : string) (n : Z) (items : list dict) (results : list dict)
  : list dict :=
  match items with
  | [] => results
  | item :: items' =>
      if matches query item then
        if n <=? Z.of_nat (length (results ++ [item]))
        then results ++ [item]
        else scan query n items' (results ++ [item])
      else scan query n items' results
  end.

(** [Memory.search(query, n=5)] *)
Definition search (self : t) (query : string) (n : Z) : M (outcome (list dict)) :=
  match vector_db self with
  | Some store => VectorDB.search svc store query n
  | None => ret (Return (scan query n (short_term_memory self) []))
  end.

End OtherMethods.

(** [Memory.clear_short_term()] *)
Definition clear_short_term (self : t) : t :=
  {| short_term_memory := [];
     vector_db := vector_db self;
     max_short_term_items := max_short_term_items self |}.

(** [Memory.get_all_short_term()] *)
Definition get_all_short_term (self : t) : list dict := short_term_memory self.

(** [Memory.get_by_type(item_type)] *)
Definition get_by_type (self : t) (item_type : string) : list dict :=
  filter (fun item => eq_str (dict_get item "type") item_type = true)
         (short_term_memory self).

End Memory.

(** ** thought_atom.py *)

Module ThoughtAtom.
Import Py Effects.

(** A thought atom with the subtree below it. The [parent] reference is the
    position of the node in the tree that holds it. *)
Inductive t : Type :=
| Atom (content : string) (level : Z) (metadata : dict) (children : list t).

Definition content (a : t) : string := let 'Atom c _ _ _ := a in c.
Definition level (a : t) : Z := let 'Atom _ l _ _ := a in l.
Definition metadata (a : t) : dict := let 'Atom _ _ m _ := a in m.
Definition children (a : t) : list t := let 'Atom _ _ _ ch := a in ch.

(** [ThoughtAtom(content, level, parent, metadata)]: [metadata or {}]. *)
Definition init (content : string) (level : Z) (metadata : option dict) : t :=
  Atom content level
       (match metadata with
        | Some (kv :: m) => kv :: m
        | _ => []
        end)
       [].

(** [self.add_child(child)]: only the level of [child] itself is set. *)
Definition add_child (self child : t) : t :=
  Atom (content self) (level self) (metadata self)
       (children self ++
          [Atom (content child) (level self + 1) (metadata child) (children child)]).

Definition newline : string := String (ascii_of_nat 10) EmptyString.

(** The f-string of [summarize]. *)
Definition summary_prompt (combined : string) : string :=
  newline +:+
  "        Summarize the following content into a coherent and comprehensive summary:" +:+ newline +:+
  "        " +:+ newline +:+
  "        " +:+ combined +:+ newline +:+
  "        " +:+ newline +:+
  "        Your summary should capture all key points while being more concise than the original." +:+ newline +:+
  "        ".

Section Methods.
Variable svc : Services.

(** [ThoughtAtom.summarize(llm_interface)] *)
Fixpoint summarize (llm_interface : LLMInterface.t) (self : t) : M (outcome string) :=
  match self with
  | Atom content _ _ children =>
      match children with
      | [] => ret (Return content)
      | _ :: _ =>
          let* r := Comprehension.for_each (summarize llm_interface) children in
          match r with
          | Raise e => ret (Raise e)
          | Return child_summaries =>
              let combined := join (newline +:+ newline) child_summaries in
              LLMInterface.generate svc llm_interface (summary_prompt combined)
                None LLMInterface.default_temperature
          end
      end
  end.

End Methods.

(** The nested record [{content, level, metadata, children: [...]}]; the two
    keys read with [data.get] may be absent. *)
Inductive NodeDict : Type :=
| Node (content : string) (level : Z) (metadata : option dict)
       (children : option (list NodeDict)).

(** [ThoughtAtom.to_dict()] *)
Fixpoint to_dict (self : t) : NodeDict :=
  match self with
  | Atom content level metadata children =>
      Node content level (Some metadata) (Some (map to_dict children))
  end.

(** [ThoughtAtom.from_dict(data)] *)
Fixpoint from_dict (data : NodeDict) : t :=
  match data with
  | Node content level metadata children =>
      let atom := init content level (Some (default [] metadata)) in
      let fix attach (atom : t) (ds : list NodeDict) : t :=
        match ds with
        | [] => atom
        | child_data :: ds' => attach (add_child atom (from_dict child_data)) ds'
        end in
      match children with
      | Some ds => attach atom ds
      | None => atom
      end
  end.

(** [a] with its own level replaced. *)
Definition set_level (l : Z) (a : t) : t :=
  Atom (content a) l (metadata a) (children a).

(** Induction on atoms, with the hypothesis for every child. *)
Section Induction.
Variable P : t -> Prop.
Hypothesis P_atom :
  forall content level metadata children,
    Forall P children -> P (Atom content level metadata children).

Fixpoint atom_ind (a : t) : P a :=
  match a with
  | Atom content level metadata children =>
      P_atom content level metadata children
        ((fix all (cs : list t) : Forall P cs :=
            match cs with
            | [] => Forall_nil_2 P
            | c :: cs' => Forall_cons_2 P c cs' (atom_ind c) (all cs')
            end) children)
  end.
End Induction.

(** The tree without its levels: contents, metadata and the order of the
    children. *)
Inductive Shape : Type :=
| ShapeNode (content : string) (metadata : dict) (children : list Shape).

Fixpoint shape (a : t) : Shape :=
  match a with
  | Atom content _ metadata children => ShapeNode content metadata (map shape children)
  end.

(** Every child is one level below its parent, throughout the tree. *)
Fixpoint levels_consistent (a : t) : Prop :=
  match a with
  | Atom _ level _ children =>
      (fix all (cs : list t) : Prop :=
         match cs with
         | [] => True
         | c :: cs' => (ThoughtAtom.level c = level + 1 /\ levels_consistent c) /\ all cs'
         end) children
  end.


(** [ThoughtAtom.find_by_metadata(key, value)] *)
Fixpoint find_by_metadata (key : string) (value : pyval) (self : t) : list t :=
  match self with
  | Atom _ _ metadata children =>
      (if py_eq (dict_get_default metadata key PNone) value then [self] else [])
      ++ (fix each (cs : list t) : list t :=
            match cs with
            | [] => []
            | child :: cs' => find_by_metadata key value child ++ each cs'
            end) children
  end.

(** The test that [find_by_metadata] applies to a node. *)
Definition has_metadata (key : string) (value : pyval) (node : t) : Prop :=
  py_eq (dict_get_default (metadata node) key PNone) value = true.

#[export] Instance has_metadata_dec key value node :
  Decision (has_metadata key value node) :=
  decide (py_eq (dict_get_default (metadata node) key PNone) value = true).

(** The nodes of a tree, each parent before its children, the children in
    the order they were attached. *)
Fixpoint preorder (a : t) : list t :=
  match a with
  | Atom _ _ _ children => a :: flat_map preorder children
  end.

(** The number of nodes that have children. *)
Fixpoint inner_nodes (a : t) : nat :=
  match a with
  | Atom _ _ _ children =>
      match children with
      | [] => 0%nat
      | _ :: _ => S (sum_list (map inner_nodes children))
      end
  end.

End ThoughtAtom.

(** [ThoughtTree]: the root atom; a node is named by the path of child
    indices that leads to it from the root. *)
Module ThoughtTree.
Import Py Effects.

Record t : Type := {
  root : ThoughtAtom.t;
  llm_interface : LLMInterface.t
}.

(** [ThoughtTree(root_content, llm_config)] *)
Definition init (root_content : string) (llm_config : dict) : t :=
  {| root := ThoughtAtom.init root_content 0 None;
     llm_interface := {| LLMInterface.config := llm_config |} |}.

(** [add_thought] below the node at [path]: a fresh atom is built with
    [parent.level + 1] and handed to [parent.add_child]. A path that leads
    nowhere leaves the tree as it is. *)
Fixpoint add_below (path : list nat) (content : string) (metadata : option dict)
    (node : ThoughtAtom.t) : ThoughtAtom.t :=
  match path with
  | [] =>
      ThoughtAtom.add_child node
        (ThoughtAtom.init content (ThoughtAtom.level node + 1) metadata)
  | i :: path' =>
      match node with
      | ThoughtAtom.Atom c l m ch =>
          ThoughtAtom.Atom c l m
            (alter (add_below path' content metadata) i ch)
      end
  end.

(** [ThoughtTree.add_thought(content, parent, metadata)]; [parent=None] is
    the empty path. *)
Definition add_thought (self : t) (content : string) (parent : list nat)
    (metadata : option dict) : t :=
  {| root := add_below parent content metadata (root self);
     llm_interface := llm_interface self |}.

Definition to_dict (self : t) : ThoughtAtom.NodeDict :=
  ThoughtAtom.to_dict (root self).

(** [ThoughtTree.from_dict(data, llm_config)] *)
Definition from_dict (data : ThoughtAtom.NodeDict) (llm_config : dict) : t :=
  {| root := ThoughtAtom.from_dict data;
     llm_interface := {| LLMInterface.config := llm_config |} |}.

(** The trees that a program obtains from the constructor by calls to
    [add_thought]. *)
Inductive built : t -> Prop :=
| built_init root_content llm_config : built (init root_content llm_config)
| built_add self content parent metadata :
    built self -> built (add_thought self content parent metadata).

End ThoughtTree.

(** ** base_agent.py *)

Module BaseAgent.
Import Py Effects.

(** The dataclass [Action]. *)
Record Action : Type := {
  tool : pyval;
  args : pyval;
  thought : string
}.

(** A registered tool: [__doc__] and [__qualname__] of the function, and what
    calling it with keyword arguments does. *)
Record Tool : Type := {
  doc : option string;
  qualname : string;
  call : dict -> M (outcome pyval)
}.

Record t : Type := {
  name : string;
  role : string;
  llm : LLMInterface.t;
  memory : Memory.t;
  tools : list (string * Tool);
  system_prompt : string
}.

(** [BaseAgent(name, role, llm_config)] *)
Definition init (name role : string) (llm_config : dict) : t :=
  {| name := name;
     role := role;
     llm := {| LLMInterface.config := llm_config |};
     memory := Memory.init None Memory.default_max_short_term_items;
     tools := [];
     system_prompt := "You are " +:+ name +:+ ", a " +:+ role +:+ "." |}.

Definition with_memory (self : t) (m : Memory.t) : t :=
  {| name := name self; role := role self; llm := llm self; memory := m;
     tools := tools self; system_prompt := system_prompt self |}.

(** [self.tools.get(k)] *)
Fixpoint lookup_tool (l : list (string * Tool)) (k : string) : option Tool :=
  match l with
  | [] => None
  | (k', f) :: l' => if String.eqb k' k then Some f else lookup_tool l' k
  end.

(** [self.tools[k] = f] *)
Fixpoint set_tool (l : list (string * Tool)) (k : string) (f : Tool)
  : list (string * Tool) :=
  match l with
  | [] => [(k, f)]
  | (k', f') :: l' =>
      if String.eqb k' k then (k', f) :: l' else (k', f') :: set_tool l' k f
  end.

(** [BaseAgent.register_tool(tool_name, tool_function)] *)
Definition register_tool (self : t) (tool_name : string) (tool_function : Tool) : t :=
  {| name := name self; role := role self; llm := llm self; memory := memory self;
     tools := set_tool (tools self) tool_name tool_function;
     system_prompt := system_prompt self |}.

(** [BaseAgent.set_system_prompt(prompt)] *)
Definition set_system_prompt (self : t) (prompt : string) : t :=
  {| name := name self; role := role self; llm := llm self; memory := memory self;
     tools := tools self; system_prompt := prompt |}.

(** A double quote. *)
Definition dq : string := String (ascii_of_nat 34) EmptyString.

(** The f-string of [think]. *)
Definition think_prompt (bi : Builtins.t) (context : string)
    (relevant_memories : list dict) : string :=
  nl +:+
  "        Based on the following context and your relevant memories, what should you do next?" +:+ nl +:+
  "        " +:+ nl +:+
  "        Context:" +:+ nl +:+
  "        " +:+ context +:+ nl +:+
  "        " +:+ nl +:+
  "        Relevant Memories:" +:+ nl +:+
  "        " +:+ Builtins.str bi (PList (PDict <$> relevant_memories)) +:+ nl +:+
  "        " +:+ nl +:+
  "        Think step by step about what to do next." +:+ nl +:+
  "        ".

(** The f-string of [act]. *)
Definition act_prompt (thought tools_description : string) : string :=
  nl +:+
  "        Based on your thought, decide which tool to use and with what arguments." +:+ nl +:+
  "        " +:+ nl +:+
  "        Your thought:" +:+ nl +:+
  "        " +:+ thought +:+ nl +:+
  "        " +:+ nl +:+
  "        Available tools:" +:+ nl +:+
  "        " +:+ tools_description +:+ nl +:+
  "        " +:+ nl +:+
  "        Respond in the following JSON format:" +:+ nl +:+
  "        {" +:+ nl +:+
  "            " +:+ dq +:+ "tool" +:+ dq +:+ ": " +:+ dq +:+ "tool_name" +:+ dq +:+ "," +:+ nl +:+
  "            " +:+ dq +:+ "args" +:+ dq +:+ ": {" +:+ nl +:+
  "                " +:+ dq +:+ "arg1" +:+ dq +:+ ": " +:+ dq +:+ "value1" +:+ dq +:+ "," +:+ nl +:+
  "                " +:+ dq +:+ "arg2" +:+ dq +:+ ": " +:+ dq +:+ "value2" +:+ dq +:+ nl +:+
  "            }" +:+ nl +:+
  "        }" +:+ nl +:+
  "        ".

(** [[f"- {name}: {func.__doc__}" for name, func in self.tools.items()]],
    joined by line breaks. *)
Definition tools_description (self : t) : string :=
  join nl ((fun kf : string * Tool =>
              "- " +:+ kf.1 +:+ ": " +:+ default "None" (doc kf.2)) <$> tools self).

(** [v[key]] for a string [key]. *)
Definition subscript (v : pyval) (key : string) : outcome pyval :=
  match v with
  | PDict d =>
      match dict_get d key with
      | Some x => Return x
      | None => Raise {| exn_class := "KeyError"; exn_str := "'" +:+ key +:+ "'" |}
      end
  | PList _ =>
      Raise (Builtins.type_error "list indices must be integers or slices, not str")
  | PStr _ => Raise (Builtins.type_error "string indices must be integers, not 'str'")
  | other =>
      Raise (Builtins.type_error
               ("'" +:+ type_name other +:+ "' object is not subscriptable"))
  end.

(** The action taken when the answer cannot be read. *)
Definition default_action (thought : string) : Action :=
  {| tool := PStr "default_tool";
     args := PDict [("message", PStr "Failed to parse action")];
     thought := thought |}.

(** The [try] block of [act]: the answer parsed into an action; a
    [JSONDecodeError] or a [KeyError] gives the default action. *)
Definition parse_action (bi : Builtins.t) (action_json thought : string)
  : outcome Action :=
  let caught (e : exn) : outcome Action :=
    if Builtins.is_json_decode_error e || String.eqb (exn_class e) "KeyError"
    then Return (default_action thought)
    else Raise e in
  match Builtins.json_loads bi action_json with
  | Raise e => caught e
  | Return action_data =>
      match subscript action_data "tool" with
      | Raise e => caught e
      | Return tool_value =>
          match subscript action_data "args" with
          | Raise e => caught e
          | Return args_value =>
              Return {| tool := tool_value; args := args_value; thought := thought |}
          end
      end
  end.

(** [str(action)], the text that the dataclass generates. *)
Definition str_action (bi : Builtins.t) (action : Action) : string :=
  "Action(tool=" +:+ Builtins.repr bi (tool action) +:+
  ", args=" +:+ Builtins.repr bi (args action) +:+
  ", thought=" +:+ Builtins.repr bi (PStr (thought action)) +:+ ")".

Section Methods.
Variable svc : Services.
Variable bi : Builtins.t.

(** [self.memory.add(item)]: the agent with the memory afterwards. *)
Definition remember (self : t) (item : dict) : M (t * outcome unit) :=
  let* r := Memory.add svc (memory self) item false in
  ret (with_memory self r.1, r.2).

(** [BaseAgent.think(context)] *)
Definition think (self : t) (context : string) : M (t * outcome string) :=
  let* found := Memory.search svc bi (memory self) context 5 in
  match found with
  | Raise e => ret (self, Raise e)
  | Return relevant_memories =>
      let* g := LLMInterface.generate svc (llm self)
                  (think_prompt bi context relevant_memories)
                  (Some (system_prompt self)) LLMInterface.default_temperature in
      match g with
      | Raise e => ret (self, Raise e)
      | Return thought =>
          let* r := remember self [("type", PStr "thought"); ("content", PStr thought)] in
          ret (r.1, match r.2 with
                    | Return _ => Return thought
                    | Raise e => Raise e
                    end)
      end
  end.

(** [BaseAgent.act(thought)] *)
Definition act (self : t) (thought : string) : M (t * outcome Action) :=
  let* g := LLMInterface.generate svc (llm self)
              (act_prompt thought (tools_description self))
              (Some (system_prompt self)) LLMInterface.default_temperature in
  match g with
  | Raise e => ret (self, Raise e)
  | Return action_json =>
      match parse_action bi action_json thought with
      | Raise e => ret (self, Raise e)
      | Return action =>
          let* r := remember self [("type", PStr "action");
                                   ("content", PStr (str_action bi action))] in
          ret (r.1, match r.2 with
                    | Return _ => Return action
                    | Raise e => Raise e
                    end)
      end
  end.

(** [BaseAgent.execute_action(action)] *)
Definition execute_action (self : t) (action : Action) : M (outcome pyval) :=
  match tool action with
  | PList _ => ret (Raise (Builtins.type_error "unhashable type: 'list'"))
  | PDict _ => ret (Raise (Builtins.type_error "unhashable type: 'dict'"))
  | other =>
      match (match other with
             | PStr tool_name => lookup_tool (tools self) tool_name
             | _ => None
             end) with
      | Some f =>
          match args action with
          | PDict kwargs => call f kwargs
          | not_a_mapping =>
              ret (Raise (Builtins.type_error
                            (qualname f +:+ "() argument after ** must be a mapping, not "
                             +:+ type_name not_a_mapping)))
          end
      | None =>
          ret (Raise {| exn_class := "Exception";
                        exn_str := "Tool " +:+ Builtins.str bi other +:+ " not found" |})
      end
  end.

(** [BaseAgent.observe(result)] *)
Definition observe (self : t) (result : pyval) : M (t * outcome string) :=
  let observation := Builtins.str bi result in
  let* r := remember self [("type", PStr "observation");
                           ("content", PStr observation)] in
  ret (r.1, match r.2 with
            | Return _ => Return observation
            | Raise e => Raise e
            end).

(** [BaseAgent.run(context)] *)
Definition run (self : t) (context : string) : M (t * outcome string) :=
  let* r0 := remember self [("type", PStr "context"); ("content", PStr context)] in
  match r0.2 with
  | Raise e => ret (r0.1, Raise e)
  | Return _ =>
      let* r1 := think r0.1 context in
      match r1.2 with
      | Raise e => ret (r1.1, Raise e)
      | Return thought =>
          let* r2 := act r1.1 thought in
          match r2.2 with
          | Raise e => ret (r2.1, Raise e)
          | Return action =>
              let* r3 := execute_action r2.1 action in
              match r3 with
              | Raise e => ret (r2.1, Raise e)
              | Return result => observe r2.1 result
              end
          end
      end
  end.

End Methods.

End BaseAgent.

(** ** agent_coordinator.py *)

Module AgentCoordinator.
Import Py Effects.

Record t : Type := {
  agents : list (string * BaseAgent.t);
  llm_config : dict;
  llm_interface : LLMInterface.t
}.

(** [AgentCoordinator(llm_config)] *)
Definition init (llm_config : dict) : t :=
  {| agents := []; llm_config := llm_config;
     llm_interface := {| LLMInterface.config := llm_config |} |}.

(** [self.agents.get(k)] *)
Fixpoint lookup_agent (l : list (string * BaseAgent.t)) (k : string)
  : option BaseAgent.t :=
  match l with
  | [] => None
  | (k', a) :: l' => if String.eqb k' k then Some a else lookup_agent l' k
  end.

(** [self.agents[k] = a] *)
Fixpoint set_agent (l : list (string * BaseAgent.t)) (k : string) (a : BaseAgent.t)
  : list (string * BaseAgent.t) :=
  match l with
  | [] => [(k, a)]
  | (k', a') :: l' =>
      if String.eqb k' k then (k', a) :: l' else (k', a') :: set_agent l' k a
  end.

Definition with_agents (self : t) (l : list (string * BaseAgent.t)) : t :=
  {| agents := l; llm_config := llm_config self; llm_interface := llm_interface self |}.

(** [AgentCoordinator.register_agent(agent)] *)
Definition register_agent (self : t) (agent : BaseAgent.t) : t :=
  with_agents self (set_agent (agents self) (BaseAgent.name agent) agent).

(** [AgentCoordinator.get_agent(agent_name)] *)
Definition get_agent (self : t) (agent_name : string) : option BaseAgent.t :=
  lookup_agent (agents self) agent_name.

(** [AgentCoordinator.list_agents()] *)
Definition list_agents (self : t) : list string := (agents self).*1.

(** The f-string of [message_passing]. *)
Definition message_context (from_agent message : string) : string :=
  nl +:+
  "        Message from " +:+ from_agent +:+ ":" +:+ nl +:+
  "        " +:+ nl +:+
  "        " +:+ message +:+ nl +:+
  "        " +:+ nl +:+
  "        Please respond to this message." +:+ nl +:+
  "        ".

(** The f-string of [broadcast]. *)
Definition broadcast_context (from_agent message : string) : string :=
  nl +:+
  "                Broadcast message from " +:+ from_agent +:+ ":" +:+ nl +:+
  "                " +:+ nl +:+
  "                " +:+ message +:+ nl +:+
  "                " +:+ nl +:+
  "                Please respond to this broadcast message." +:+ nl +:+
  "                ".

Section Methods.
Variable svc : Services.
Variable bi : Builtins.t.

(** [AgentCoordinator.message_passing(from_agent, to_agent, message)] *)
Definition message_passing (self : t) (from_agent to_agent message : string)
  : M (t * outcome string) :=
  match lookup_agent (agents self) to_agent with
  | None =>
      ret (self, Raise {| exn_class := "Exception";
                          exn_str := "Agent " +:+ to_agent +:+ " not found" |})
  | Some agent =>
      let* r := BaseAgent.run svc bi agent (message_context from_agent message) in
      ret (with_agents self (set_agent (agents self) to_agent r.1), r.2)
  end.

(** The loop of [broadcast] over the agents still to visit: the agents as
    they are afterwards and the responses collected, or the exception that
    ended the loop. *)
Fixpoint broadcast_loop (from_agent message : string)
    (todo : list (string * BaseAgent.t)) (responses : dict)
  : M (list (string * BaseAgent.t) * outcome dict) :=
  match todo with
  | [] => ret ([], Return responses)
  | (agent_name, agent) :: todo' =>
      if String.eqb agent_name from_agent then
        let* rest := broadcast_loop from_agent message todo' responses in
        ret ((agent_name, agent) :: rest.1, rest.2)
      else
        let* r := BaseAgent.run svc bi agent (broadcast_context from_agent message) in
        match r.2 with
        | Raise e => ret ((agent_name, r.1) :: todo', Raise e)
        | Return response =>
            let* rest := broadcast_loop from_agent message todo'
                           (dict_set responses agent_name (PStr response)) in
            ret ((agent_name, r.1) :: rest.1, rest.2)
        end
  end.

(** [AgentCoordinator.broadcast(from_agent, message)] *)
Definition broadcast (self : t) (from_agent message : string)
  : M (t * outcome dict) :=
  let* r := broadcast_loop from_agent message (agents self) [] in
  ret (with_agents self r.1, r.2).

End Methods.

End AgentCoordinator.

(** ** Sample data *)

Module Examples.
Import Py Effects.

Definition connection_refused : exn :=
  {| exn_class := "ConnectionError"; exn_str := "Connection refused" |}.

(** The user interrupts the program: not an [Exception]. *)
Definition keyboard_interrupt : exn :=
  {| exn_class := "KeyboardInterrupt"; exn_str := "" |}.

(** Every service is unreachable. *)
Definition svc_down : Services :=
  {| litellm_completion := fun _ _ => Raise connection_refused;
     ollama_embeddings := fun _ _ _ => Raise connection_refused;
     litellm_embedding := fun _ _ _ => Raise connection_refused |}.

(** Every call to a service is interrupted by the user. *)
Definition svc_interrupted : Services :=
  {| litellm_completion := fun _ _ => Raise keyboard_interrupt;
     ollama_embeddings := fun _ _ _ => Raise keyboard_interrupt;
     litellm_embedding := fun _ _ _ => Raise keyboard_interrupt |}.

(** An embedding of dimension 3: the length of the text, then 1 and 0. *)
Definition embed (text : pyval) : list Q :=
  [match text with
   | PStr s => inject_Z (Z.of_nat (String.length s))
   | _ => 0%Q
   end; 1%Q; 0%Q].

(** Every service answers: the completion echoes the user's prompt, the
    embedding of a text is [embed]. *)
Definition svc_up : Services :=
  {| litellm_completion := fun _ r =>
       Return (default "" (snd <$> last (req_messages r)));
     ollama_embeddings := fun _ _ text => Return (embed text);
     litellm_embedding := fun _ _ text => Return (embed text) |}.

(** The embedding service answers with vectors of dimension 1. *)
Definition svc_short : Services :=
  {| litellm_completion := fun _ r =>
       Return (default "" (snd <$> last (req_messages r)));
     ollama_embeddings := fun _ _ _ => Return [1%Q];
     litellm_embedding := fun _ _ _ => Return [1%Q] |}.

Definition w0 : World := {| calls := []; stdout := [] |}.

Definition llm : LLMInterface.t :=
  {| LLMInterface.config := [("model", PStr "gpt-4"); ("api_key", PStr "k")] |}.

Definition task_A : dict :=
  [("id", PStr "A"); ("description", PStr "outline");
   ("status", PStr "pending"); ("dependencies", PList [])].

Definition task_B : dict :=
  [("id", PStr "B"); ("description", PStr "chapter one");
   ("status", PStr "pending"); ("dependencies", PList [PStr "A"])].

(** Another task submitted under the id of [task_A]. *)
Definition task_A' : dict :=
  [("id", PStr "A"); ("description", PStr "characters");
   ("status", PStr "pending"); ("dependencies", PList [])].

Definition manager_A : TaskManager.t :=
  (TaskManager.add_task (TaskManager.init []) task_A).1.

Definition manager_AB : TaskManager.t :=
  (TaskManager.add_task manager_A task_B).1.

(** An open store of dimension 3 with an empty table, served by Ollama. *)
Definition store0 : VectorDB.t :=
  {| VectorDB.connection := Some {| VectorDB.table := []; VectorDB.next_id := 1 |};
     VectorDB.embedding_model := "ollama/nomic-embed-text";
     VectorDB.table_name := "novel_knowledge";
     VectorDB.dimension := 3 |}.

Definition item_storm : dict :=
  [("content", PStr "A storm hits the harbour"); ("type", PStr "event")].

(** An open store of dimension 3 that holds three records. *)
Definition store_three : VectorDB.t :=
  {| VectorDB.connection :=
       Some {| VectorDB.table :=
                 [ {| VectorDB.row_id := 1; VectorDB.row_content := PStr "far";
                      VectorDB.row_embedding := [3; 1; 0]%Q;
                      VectorDB.row_metadata := [] |};
                   {| VectorDB.row_id := 2; VectorDB.row_content := PStr "near";
                      VectorDB.row_embedding := [4; 1; 0]%Q;
                      VectorDB.row_metadata := [] |};
                   {| VectorDB.row_id := 3; VectorDB.row_content := PStr "middle";
                      VectorDB.row_embedding := [6; 1; 0]%Q;
                      VectorDB.row_metadata := [] |} ];
               VectorDB.next_id := 4 |};
     VectorDB.embedding_model := "ollama/nomic-embed-text";
     VectorDB.table_name := "novel_knowledge";
     VectorDB.dimension := 3 |}.

Definition note (k : Z) : dict :=
  [("type", PStr "note"); ("content", PInt k)].

(** A memory of capacity 3, no store attached, after five items were added. *)
Definition memory_five : Memory.t :=
  (Memory.add_all svc_up (Memory.init None 3)
     [(note 1, false); (note 2, true); (note 3, false); (note 4, true); (note 5, false)]
     w0).1.

(** The rows of [store_three]. *)
Definition table_three : list VectorDB.Row :=
  match VectorDB.connection store_three with
  | Some conn => VectorDB.table conn
  | None => []
  end.

(** Stand-ins for the built-ins, enough to run the examples: [str] is exact
    on strings, integers, booleans and [None], [repr] on integers, [None]
    and strings without quotes; [lower] and [strip] leave the
    text as it is; [json_dumps] lists the keys and the string values of a
    dictionary; [json_loads] knows the empty array only. *)
Definition builtins : Builtins.t :=
  {| Builtins.str := fun v =>
       match v with
       | PStr s => s
       | PNone => "None"
       | PBool true => "True"
       | PBool false => "False"
       | PInt z => pretty z
       | _ => "..."
       end;
     Builtins.repr := fun v =>
       match v with
       | PStr s => "'" +:+ s +:+ "'"
       | PNone => "None"
       | PInt z => pretty z
       | _ => "..."
       end;
     Builtins.lower := fun s => s;
     Builtins.strip := fun s => s;
     Builtins.chars := fun s =>
       (fun a => String a EmptyString) <$> String.list_ascii_of_string s;
     Builtins.json_dumps := fun v =>
       match v with
       | PDict d =>
           join " " ((fun kv => kv.1 +:+ ": " +:+
                        match kv.2 with PStr s => s | _ => "..." end) <$> d)
       | _ => "..."
       end;
     Builtins.json_loads := fun s =>
       if String.eqb s "[]" then Return (PList [])
       else Raise {| exn_class := "JSONDecodeError";
                     exn_str := "Expecting value: line 1 column 1 (char 0)" |} |}.

Definition scene (text : string) : dict :=
  [("type", PStr "scene"); ("content", PStr text)].

(** A memory of capacity 10 without a store, holding three scenes. *)
Definition memory_scenes : Memory.t :=
  {| Memory.short_term_memory :=
       [scene "storm at sea"; scene "quiet harbour"; scene "storm on land"];
     Memory.vector_db := None;
     Memory.max_short_term_items := 10 |}.

(** A store configured without a host: no connection. *)
Definition store_offline : VectorDB.t :=
  {| VectorDB.connection := None;
     VectorDB.embedding_model := "ollama/nomic-embed-text";
     VectorDB.table_name := "novel_knowledge";
     VectorDB.dimension := 3 |}.

(** The memory of three scenes with the offline store attached. *)
Definition memory_offline : Memory.t :=
  {| Memory.short_term_memory := Memory.short_term_memory memory_scenes;
     Memory.vector_db := Some store_offline;
     Memory.max_short_term_items := 10 |}.

(** The memory of three scenes with the store of three records attached. *)
Definition memory_online : Memory.t :=
  {| Memory.short_term_memory := Memory.short_term_memory memory_scenes;
     Memory.vector_db := Some store_three;
     Memory.max_short_term_items := 10 |}.

(** A tool that returns the message it is given. *)
Definition echo_tool : BaseAgent.Tool :=
  {| BaseAgent.doc := Some "Return the message.";
     BaseAgent.qualname := "echo";
     BaseAgent.call := fun kwargs =>
       Effects.ret (Return (dict_get_default kwargs "message" PNone)) |}.

(** Two agents as the constructor makes them, and a coordinator that knows
    both. *)
Definition planner : BaseAgent.t := BaseAgent.init "Planner" "Novel Planner" [].
Definition editor : BaseAgent.t := BaseAgent.init "Editor" "Editor" [].

Definition coordinator : AgentCoordinator.t :=
  AgentCoordinator.register_agent
    (AgentCoordinator.register_agent (AgentCoordinator.init []) planner) editor.

(** A tree with a root, two chapters and a scene, built with [add_thought]. *)
Definition tree_novel : ThoughtTree.t :=
  let t0 := ThoughtTree.init "novel" [] in
  let t1 := ThoughtTree.add_thought t0 "chapter 1" [] (Some [("kind", PStr "chapter")]) in
  let t2 := ThoughtTree.add_thought t1 "chapter 2" [] None in
  ThoughtTree.add_thought t2 "scene 1.1" [0%nat] (Some [("kind", PStr "scene")]).


End Examples.

(** * Properties *)

(** Unfolding of the plumbing of [M]. *)
Create HintDb effects.
#[global] Hint Unfold Effects.bind Effects.ret Effects.say Effects.call_completion
  Effects.call_ollama Effects.call_litellm_embedding : effects.

Ltac run_effects := autounfold with effects.

(** ** Task manager *)

Section TaskManagerFacts.
Import Py Effects TaskManager.

Lemma find_task_app (l : list dict) (task : dict) (task_id : string) :
  find_task (l ++ [task]) task_id =
    match find_task l task_id with
    | Some found => Some found
    | None => if eq_str (dict_get task "id") task_id then Some task else None
    end.
Proof.
  induction l as [|x l IH]; simpl.
  - reflexivity.
  - destruct (eq_str (dict_get x "id") task_id); [reflexivity | exact IH].
Qed.

Lemma pending_completed_length (self : t) :
  (length (get_pending_tasks self) + length (get_completed_tasks self))%nat
  = length (tasks self).
Proof.
  unfold get_pending_tasks, get_completed_tasks.
  induction (tasks self) as [|x l IH]; [reflexivity|].
  rewrite !filter_cons.
  destruct (is_completed x) eqn:E; repeat case_decide; try congruence; simpl; lia.
Qed.

(** C1, as the code has it: [get_pending_tasks] returns exactly the submitted
    tasks whose status is not ["completed"], in the order of submission and
    whatever their dependencies; a task submitted later is listed after the
    ones before it, and the first task listed is the earliest submitted one
    that is not completed. It changes nothing in the manager, so a task is
    listed at every call until its status is ["completed"]. *)
Theorem get_pending_tasks_lists_not_completed (self : t) :
  (forall task, task ∈ get_pending_tasks self <->
                task ∈ tasks self /\ is_completed task = false)
  /\ get_pending_tasks self `sublist_of` tasks self
  /\ (forall task,
        get_pending_tasks (add_task self task).1 =
          get_pending_tasks self ++ (if is_completed task then [] else [task]))
  /\ (forall task rest,
        get_pending_tasks self = task :: rest ->
        exists earlier later,
          tasks self = earlier ++ task :: later
          /\ Forall (fun t => is_completed t = true) earlier).
Proof.
  unfold get_pending_tasks. split; [|split; [|split]].
  - intros task. rewrite list_elem_of_filter. tauto.
  - apply sublist_filter.
  - intros task. simpl. rewrite filter_app. f_equal.
    rewrite filter_cons, filter_nil.
    destruct (is_completed task); case_decide; congruence.
  - intros task rest Hhd.
    destruct (head_filter_Some (fun t => is_completed t = false) (tasks self) task)
      as (l1 & l2 & Heq & Hall).
    { by rewrite Hhd. }
    exists l1, l2. split; [exact Heq|].
    eapply Forall_impl; [exact Hall|].
    intros x Hx. simpl in Hx. by destruct (is_completed x).
Qed.

(** C1, counterexample: with [A] and [B] submitted, [B] depending on [A] and
    nothing completed, [get_pending_tasks] lists [B] although its dependency
    is not completed; the call leaves the manager as it was, so the next call
    lists the same [A] again, still not completed. *)
Lemma get_pending_tasks_lists_blocked_task :
  get_pending_tasks Examples.manager_AB = [Examples.task_A; Examples.task_B]
  /\ dependencies Examples.task_B = ["A"%string]
  /\ dependencies_completed Examples.manager_AB Examples.task_B = false
  /\ head (get_pending_tasks Examples.manager_AB) = Some Examples.task_A
  /\ is_completed Examples.task_A = false.
Proof. repeat split. Qed.

(** C9, as the code has it: [add_task] never fails. It appends the task to
    the list, also when a task of the same id is there already: the list grows
    by one, the tasks submitted before keep their places, and
    [get_task_by_id] goes on answering with the earlier task of that id. *)
Theorem add_task_always_appends (self : t) (task : dict) :
  (add_task self task).2 = Return tt
  /\ tasks (add_task self task).1 = tasks self ++ [task]
  /\ length (tasks (add_task self task).1) = S (length (tasks self))
  /\ (forall i earlier, tasks self !! i = Some earlier ->
        tasks (add_task self task).1 !! i = Some earlier)
  /\ (forall task_id earlier, get_task_by_id self task_id = Some earlier ->
        get_task_by_id (add_task self task).1 task_id = Some earlier).
Proof.
  repeat split.
  - simpl. rewrite length_app. simpl. lia.
  - intros i earlier Hi. simpl. by apply lookup_app_l_Some.
  - intros task_id earlier Hfound. unfold get_task_by_id in *. simpl.
    by rewrite find_task_app, Hfound.
Qed.

(** C9, counterexample: the manager holds a task of id ["A"]; submitting
    another task of id ["A"] returns normally and the list has two tasks. *)
Lemma add_task_accepts_duplicate_id :
  get_task_by_id Examples.manager_A "A" = Some Examples.task_A
  /\ dict_get Examples.task_A' "id" = Some (PStr "A")
  /\ (add_task Examples.manager_A Examples.task_A').2 = Return tt
  /\ tasks Examples.manager_A = [Examples.task_A]
  /\ tasks (add_task Examples.manager_A Examples.task_A').1
     = [Examples.task_A; Examples.task_A'].
Proof. repeat split. Qed.

(** C10: [monitor_progress] returns for every task list; [total] is the
    number of tasks, [completed] the number of completed ones, [pending] is
    [total - completed] (the number of tasks [get_pending_tasks] lists, never
    negative), and on the empty list the percentage is [0]: no division takes
    place. *)
Theorem monitor_progress_total (self : t) :
  exists p,
    monitor_progress self = Return p
    /\ total p = Z.of_nat (length (tasks self))
    /\ completed p = Z.of_nat (length (get_completed_tasks self))
    /\ pending p = total p - completed p
    /\ pending p = Z.of_nat (length (get_pending_tasks self))
    /\ monitor_progress {| tasks := []; llm_interface := llm_interface self |}
       = Return {| total := 0; completed := 0; pending := 0;
                   progress_percentage := 0%Q |}.
Proof.
  unfold monitor_progress.
  pose proof (pending_completed_length self) as Hsum.
  assert (Hdiv : 0 < Z.of_nat (length (tasks self)) ->
                 exists ratio,
                   truediv (Z.of_nat (length (get_completed_tasks self)))
                           (Z.of_nat (length (tasks self))) = Return ratio).
  { intros Hpos. unfold truediv.
    destruct (Z.eqb_spec (Z.of_nat (length (tasks self))) 0); [lia | eauto]. }
  destruct (Z.ltb_spec 0 (Z.of_nat (length (tasks self)))) as [Hpos|Hzero].
  - destruct (Hdiv Hpos) as [ratio ->]. eexists. split; [reflexivity|].
    simpl. repeat split; lia.
  - eexists. split; [reflexivity|]. simpl. repeat split; lia.
Qed.

End TaskManagerFacts.

(** ** Language model interface *)

Section LLMInterfaceFacts.
Import Py Effects LLMInterface.


(** [generate] records exactly one call to the service. It returns a string,
    unless the service raised an exception outside [Exception]: that one
    reaches the caller. *)
Lemma generate_outcome (svc : Services) (self : t) (prompt : string)
    (system_message : option string) (temperature : Q) (w : World) :
  calls (generate svc self prompt system_message temperature w).2
  = calls w ++
      [EvCompletion (completion_request self prompt system_message temperature)]
  /\ match (generate svc self prompt system_message temperature w).1 with
     | Return _ => True
     | Raise e =>
         is_Exception e = false
         /\ litellm_completion svc (calls w)
              (completion_request self prompt system_message temperature) = Raise e
     end.
Proof.
  unfold generate. run_effects.
  destruct (litellm_completion svc _ _) as [text|e]; simpl; [done|].
  destruct (is_Exception e) eqn:He; simpl; done.
Qed.

(** C2, as the code has it: when the completion call fails with an exception
    [e] of a class derived from [Exception], [generate] catches it, prints
    ["Error generating text: "] followed by [str(e)] and returns that same
    text as its result; nothing is raised. An exception outside [Exception]
    (a [KeyboardInterrupt], a [SystemExit]) reaches the caller as it is, and
    nothing is printed. *)
Theorem generate_failure_returns_error_text (svc : Services) (self : t)
    (prompt : string) (system_message : option string) (temperature : Q)
    (w : World) (e : exn) :
  litellm_completion svc (calls w)
    (completion_request self prompt system_message temperature) = Raise e ->
  generate svc self prompt system_message temperature w =
    if is_Exception e then
      (Return ("Error generating text: " +:+ exn_str e),
       {| calls := calls w ++
            [EvCompletion (completion_request self prompt system_message temperature)];
          stdout := stdout w ++ ["Error generating text: " +:+ exn_str e] |})
    else
      (Raise e,
       {| calls := calls w ++
            [EvCompletion (completion_request self prompt system_message temperature)];
          stdout := stdout w |}).
Proof.
  intros Hfail. unfold generate. run_effects. rewrite Hfail.
  by destruct (is_Exception e).
Qed.

(** The service is unreachable: the caller receives the error line as if it
    were generated text. *)
Lemma generate_failure_returns_error_text_witness :
  generate Examples.svc_down Examples.llm "Once upon a time" None default_temperature
    Examples.w0 =
    (Return "Error generating text: Connection refused",
     {| calls := [EvCompletion (completion_request Examples.llm "Once upon a time"
                                  None default_temperature)];
        stdout := ["Error generating text: Connection refused"] |}).
Proof.
  exact (generate_failure_returns_error_text Examples.svc_down Examples.llm
           "Once upon a time" None default_temperature Examples.w0
           Examples.connection_refused eq_refl).
Defined.

(** C2, counterexample: the completion call fails with a [ConnectionError];
    [generate] does not raise, it returns a text made up from the error. *)
Lemma generate_failure_is_not_raised :
  litellm_completion Examples.svc_down (calls Examples.w0)
    (completion_request Examples.llm "Once upon a time" None default_temperature)
    = Raise Examples.connection_refused
  /\ (generate Examples.svc_down Examples.llm "Once upon a time" None
        default_temperature Examples.w0).1
     = Return "Error generating text: Connection refused"
  /\ (forall err : exn,
        (generate Examples.svc_down Examples.llm "Once upon a time" None
           default_temperature Examples.w0).1 <> Raise err).
Proof. repeat split. intros err H. discriminate H. Qed.

End LLMInterfaceFacts.

(** ** Similarity store *)

Section VectorDBFacts.
Import Py Effects VectorDB.

Lemma dict_get_set_same (d : dict) (k : string) (v : pyval) :
  dict_get (dict_set d k v) k = Some v.
Proof.
  induction d as [|[k' v'] d IH]; simpl.
  - by rewrite String.eqb_refl.
  - destruct (String.eqb k' k) eqn:E; simpl; rewrite E; [reflexivity | exact IH].
Qed.

(** The engine rejects the query of [search], whatever its parameters. *)
Lemma select_nearest_raises (conn : Connection) (q : list Q) (n : Z) :
  select_nearest conn q n
  = Raise (match q with
           | [] => invalid_vector_literal
           | _ :: _ => no_distance_operator
           end).
Proof. by destruct q. Qed.

(** [get_embedding] returns a vector, unless the service raised an exception
    outside [Exception]: that one reaches the caller. *)
Lemma get_embedding_outcome (svc : Services) (self : t) (text : pyval) (w : World) :
  match (get_embedding svc self text w).1 with
  | Return _ => True
  | Raise e => is_Exception e = false
  end.
Proof.
  unfold get_embedding. run_effects.
  destruct (String.prefix _ _).
  - destruct (ollama_embeddings svc _ _ _) as [v|e]; simpl; [done|].
    by destruct (is_Exception e) eqn:He.
  - destruct (litellm_embedding svc _ _ _) as [v|e]; simpl; [done|].
    by destruct (is_Exception e) eqn:He.
Qed.

(** C7, what the code does: on an open connection [search] returns no list.
    It obtains the embedding of the query and binds that list to the right
    operand of [<=>]; the engine has no such operator for a vector and an
    array, and the call ends in an exception whatever the table holds,
    whatever the query and for every [n]. So it is for the store of three
    records asked for the two records nearest to ["storm"]: the embedding
    service answers, and [UndefinedFunction] reaches the caller. *)
Theorem search_raises_on_open_connection (svc : Services) (conn : Connection)
    (model name : string) (dim : Z) (query : string) (n : Z) (w : World) :
  (exists e,
     (search svc {| connection := Some conn; embedding_model := model;
                    table_name := name; dimension := dim |} query n w).1
     = Raise e)
  /\ size Examples.store_three = 3%nat
  /\ (get_embedding Examples.svc_up Examples.store_three (PStr "storm")
        Examples.w0).1 = Return [5; 1; 0]%Q
  /\ (search Examples.svc_up Examples.store_three "storm" 2 Examples.w0).1
     = Raise {| exn_class := "UndefinedFunction";
                exn_str := "operator does not exist: vector <=> numeric[]" |}.
Proof.
  split; [|by repeat split].
  unfold search. cbn [connection]. unfold bind, ret.
  destruct (get_embedding svc _ (PStr query) w) as [[qe|e] w']; simpl; [|eauto].
  rewrite select_nearest_raises. eauto.
Qed.

Lemma get_embedding_failure (svc : Services) (self : t) (text : pyval)
    (w : World) (e : exn) :
  embedding_call_fails svc self text w e ->
  exists w',
    get_embedding svc self text w
    = (if is_Exception e then Return (zero_vector self) else Raise e, w').
Proof.
  unfold embedding_call_fails, get_embedding. run_effects.
  destruct (String.prefix _ _); intros ->; simpl;
    destruct (is_Exception e); simpl; eauto.
Qed.

(** The zero vector of a store fits the column of its table. *)
Lemma insert_row_zero_vector (self : t) (conn : Connection) (content : pyval)
    (metadata : dict) :
  1 <= dimension self <= 16000 ->
  insert_row (dimension self) conn content (zero_vector self) metadata
  = Return {| table := table conn ++
                [ {| row_id := next_id conn; row_content := content;
                     row_embedding := zero_vector self;
                     row_metadata := metadata |} ];
              next_id := next_id conn + 1 |}.
Proof.
  intros Hdim. unfold insert_row.
  assert (Hlen : length (zero_vector self) = Z.to_nat (dimension self))
    by apply length_replicate.
  destruct (zero_vector self) as [|x l] eqn:Hz; [simpl in Hlen; lia|].
  rewrite Hlen.
  destruct (Z.ltb_spec 16000 (Z.of_nat (Z.to_nat (dimension self)))); [lia|].
  destruct (Z.eqb_spec (Z.of_nat (Z.to_nat (dimension self))) (dimension self));
    [|lia].
  reflexivity.
Qed.

(** A row is inserted only with an embedding of the column's dimension. *)
Lemma insert_row_outcome (dim : Z) (conn : Connection) (content : pyval)
    (embedding : list Q) (metadata : dict) :
  match insert_row dim conn content embedding metadata with
  | Return conn' =>
      Z.of_nat (length embedding) = dim
      /\ conn' = {| table := table conn ++
                     [ {| row_id := next_id conn; row_content := content;
                          row_embedding := embedding;
                          row_metadata := metadata |} ];
                   next_id := next_id conn + 1 |}
  | Raise _ => True
  end.
Proof.
  unfold insert_row. destruct embedding as [|x l]; [done|].
  destruct (16000 <? _); [done|].
  destruct (Z.eqb_spec (Z.of_nat (length (x :: l))) dim); done.
Qed.

(** What [add] does, by what it returns: [True] after a row was inserted
    under the next key, with an embedding of the store's dimension; [False]
    without a connection or without content, before any service is called;
    an exception with the store as it was. *)
Lemma add_outcome (svc : Services) (self : t) (item : dict) (w : World) :
  match (add svc self item w).1.2 with
  | Return true =>
      exists conn embedding,
        connection self = Some conn
        /\ truthy (dict_get_default item "content" (PStr "")) = true
        /\ (get_embedding svc self (dict_get_default item "content" (PStr "")) w).1
           = Return embedding
        /\ Z.of_nat (length embedding) = dimension self
        /\ (add svc self item w).1.1 =
             {| connection :=
                  Some {| table := table conn ++
                            [ {| row_id := next_id conn;
                                 row_content := dict_get_default item "content" (PStr "");
                                 row_embedding := embedding;
                                 row_metadata :=
                                   filter (fun kv => String.eqb kv.1 "content" = false)
                                          item |} ];
                          next_id := next_id conn + 1 |};
                embedding_model := embedding_model self;
                table_name := table_name self;
                dimension := dimension self |}
  | Return false =>
      add svc self item w = ((self, Return false), w)
      /\ (connection self = None
          \/ truthy (dict_get_default item "content" (PStr "")) = false)
  | Raise e =>
      (add svc self item w).1.1 = self
      /\ connection self <> None
      /\ truthy (dict_get_default item "content" (PStr "")) = true
  end.
Proof.
  unfold add. destruct (connection self) as [conn|] eqn:Hconn; [|simpl; auto].
  cbv zeta. destruct (truthy _) eqn:Hc; [|simpl; auto].
  cbn [negb]. cbv beta iota. unfold bind, ret.
  destruct (get_embedding svc self _ w) as [[emb|e] w']; [|done].
  pose proof (insert_row_outcome (dimension self) conn
                (dict_get_default item "content" (PStr "")) emb
                (filter (fun kv => String.eqb kv.1 "content" = false) item)) as Hrow.
  destruct (insert_row _ _ _ _ _) as [conn'|e]; [|done].
  destruct Hrow as [Hlen ->]. cbn [fst snd]. exists conn, emb. by repeat split.
Qed.

(** C3, as the code has it: when the embedding call fails with an exception
    of a class derived from [Exception], [get_embedding] of the store catches
    it and answers with the zero vector of the store's dimension; [add], on
    an open connection and for an item with content, then stores the record
    with that zero vector as its embedding and returns [True], and no
    exception reaches the caller. An exception outside [Exception] reaches
    the caller of [add], and nothing is stored. The dimension of a vector
    column lies between 1 and 16000. *)
Theorem add_stores_zero_vector_on_embedding_failure (svc : Services) (self : t)
    (conn : Connection) (item : dict) (w : World) (e : exn) :
  connection self = Some conn ->
  1 <= dimension self <= 16000 ->
  truthy (dict_get_default item "content" (PStr "")) = true ->
  embedding_call_fails svc self (dict_get_default item "content" (PStr "")) w e ->
  exists w',
    add svc self item w =
      if is_Exception e then
        (({| connection :=
               Some {| table := table conn ++
                         [ {| row_id := next_id conn;
                              row_content := dict_get_default item "content" (PStr "");
                              row_embedding := replicate (Z.to_nat (dimension self)) 0%Q;
                              row_metadata :=
                                filter (fun kv => String.eqb kv.1 "content" = false) item |} ];
                       next_id := next_id conn + 1 |};
             embedding_model := embedding_model self;
             table_name := table_name self;
             dimension := dimension self |},
          Return true), w')
      else ((self, Raise e), w').
Proof.
  intros Hconn Hdim Hcontent Hfail.
  destruct (get_embedding_failure svc self _ w e Hfail) as [w' Hemb].
  exists w'. unfold add, bind. rewrite Hconn. cbv zeta.
  rewrite Hcontent. cbn [negb]. cbv beta iota. rewrite Hemb.
  destruct (is_Exception e); [|reflexivity].
  by rewrite (insert_row_zero_vector self conn _ _ Hdim).
Qed.

(** The embedding service is unreachable and the store has dimension 3:
    the record is stored with the embedding [0, 0, 0]. *)
Lemma add_stores_zero_vector_on_embedding_failure_witness :
  exists w',
    add Examples.svc_down Examples.store0 Examples.item_storm Examples.w0 =
      (({| connection :=
             Some {| table :=
                       [ {| row_id := 1;
                            row_content := PStr "A storm hits the harbour";
                            row_embedding := [0%Q; 0%Q; 0%Q];
                            row_metadata := [("type", PStr "event")] |} ];
                     next_id := 2 |};
           embedding_model := "ollama/nomic-embed-text";
           table_name := "novel_knowledge";
           dimension := 3 |},
        Return true), w').
Proof.
  exact (add_stores_zero_vector_on_embedding_failure Examples.svc_down
           Examples.store0 {| table := []; next_id := 1 |} Examples.item_storm
           Examples.w0 Examples.connection_refused eq_refl
           ltac:(split; vm_compute; discriminate) eq_refl eq_refl).
Defined.

(** C3, counterexample: the embedding service is unreachable; [add] does not
    fail, it returns [True] and the table holds the item with the embedding
    [0, 0, 0]. *)
Lemma add_succeeds_when_embedding_fails :
  ollama_embeddings Examples.svc_down (calls Examples.w0) "nomic-embed-text"
    (PStr "A storm hits the harbour") = Raise Examples.connection_refused
  /\ (add Examples.svc_down Examples.store0 Examples.item_storm Examples.w0).1.2
     = Return true
  /\ (row_embedding <$>
        match connection
                (add Examples.svc_down Examples.store0 Examples.item_storm
                   Examples.w0).1.1 with
        | Some conn => table conn
        | None => []
        end)
     = [[0%Q; 0%Q; 0%Q]].
Proof. repeat split. Qed.

End VectorDBFacts.

(** ** Bounded memory *)

Section MemoryFacts.
Import Py Effects Memory.
Variable svc : Services.

(** The buffer after one [add]: the item goes last and, when the capacity is
    exceeded, the head of the buffer is dropped. *)
Lemma add_buffer (self : t) (item : dict) (is_important : bool) (w : World) :
  short_term_memory (add svc self item is_important w).1.1 =
    (if max_short_term_items self <? Z.of_nat (length (short_term_memory self)) + 1
     then drop 1 (short_term_memory self ++ [item])
     else short_term_memory self ++ [item])
  /\ max_short_term_items (add svc self item is_important w).1.1
     = max_short_term_items self.
Proof.
  unfold add.
  assert (Hlen : Z.of_nat (length (short_term_memory self ++ [item]))
                 = Z.of_nat (length (short_term_memory self)) + 1).
  { rewrite length_app. simpl. lia. }
  rewrite Hlen.
  assert (Hpop : pop0 (short_term_memory self ++ [item]) =
                 Some (default item (head (short_term_memory self)),
                       drop 1 (short_term_memory self ++ [item]))).
  { by destruct (short_term_memory self). }
  rewrite Hpop.
  destruct (max_short_term_items self
            <? Z.of_nat (length (short_term_memory self)) + 1);
    destruct is_important; simpl;
    destruct (vector_db self); simpl; unfold bind, ret;
    try destruct (VectorDB.add svc _ item w) as [[? ?] ?]; simpl; done.
Qed.

Lemma drop_app_more {A} (b l : list A) (k : nat) :
  drop (length b + k) (b ++ l) = drop k l.
Proof. by rewrite drop_app_add. Qed.

(** A run of [add] calls on a buffer within its capacity keeps the newest
    items, in the order they were added. *)
Lemma add_all_buffer (reqs : list (dict * bool)) :
  forall (self : t) (w : World),
    0 <= max_short_term_items self ->
    (length (short_term_memory self) <= Z.to_nat (max_short_term_items self))%nat ->
    short_term_memory (add_all svc self reqs w).1 =
      drop (length (short_term_memory self) + length reqs
            - Z.to_nat (max_short_term_items self))
           (short_term_memory self ++ reqs.*1).
Proof.
  induction reqs as [|[item imp] reqs IH]; intros self w Hcap Hlen.
  - simpl. rewrite app_nil_r.
    replace (_ + 0 - _)%nat with 0%nat by lia. reflexivity.
  - simpl add_all. unfold bind.
    destruct (add_buffer self item imp w) as [Hbuf Hmax].
    destruct (add svc self item imp w) as [[self1 r] w1]. simpl in Hbuf, Hmax |- *.
    rewrite IH; rewrite ?Hmax; try lia.
    + rewrite Hbuf. destruct (Z.ltb_spec (max_short_term_items self)
                                (Z.of_nat (length (short_term_memory self)) + 1)).
      * rewrite length_drop, length_app. simpl length.
        rewrite <- drop_app_le by (rewrite length_app; simpl; lia).
        rewrite drop_drop, <- app_assoc. simpl. f_equal. lia.
      * rewrite length_app, <- app_assoc. simpl. f_equal. lia.
    + rewrite Hbuf. destruct (Z.ltb_spec (max_short_term_items self)
                                (Z.of_nat (length (short_term_memory self)) + 1)).
      * rewrite length_drop, length_app. simpl. lia.
      * rewrite length_app. simpl. lia.
Qed.

(** C4: a memory of capacity [N] that received [count] items, each with any
    [important] flag and with or without a store attached, holds exactly
    [min count N] items: the last ones added, in the order they were added.
    One more [add] puts the item last and, once [N] items are held, drops the
    oldest one. *)
Theorem add_keeps_newest_within_capacity (store : option VectorDB.t) (N : Z)
    (reqs : list (dict * bool)) (w : World) :
  0 <= N ->
  short_term_memory (add_all svc (init store N) reqs w).1
    = drop (length reqs - Z.to_nat N) reqs.*1
  /\ length (short_term_memory (add_all svc (init store N) reqs w).1)
     = Nat.min (length reqs) (Z.to_nat N)
  /\ (forall item is_important w',
        short_term_memory
          (add svc (add_all svc (init store N) reqs w).1 item is_important w').1.1
        = if decide (length reqs < Z.to_nat N)%nat
          then short_term_memory (add_all svc (init store N) reqs w).1 ++ [item]
          else drop 1 (short_term_memory (add_all svc (init store N) reqs w).1
                         ++ [item])).
Proof.
  intros HN.
  assert (Hbuf : short_term_memory (add_all svc (init store N) reqs w).1
                 = drop (length reqs - Z.to_nat N) reqs.*1).
  { rewrite add_all_buffer; simpl; try lia. reflexivity. }
  assert (Hlen : length (short_term_memory (add_all svc (init store N) reqs w).1)
                 = Nat.min (length reqs) (Z.to_nat N)).
  { rewrite Hbuf, length_drop, length_fmap. lia. }
  assert (Hmax : forall rs (m : t) w0,
             max_short_term_items (add_all svc m rs w0).1 = max_short_term_items m).
  { induction rs as [|[i b] rs IH]; intros m w0; [reflexivity|].
    simpl add_all. unfold bind.
    destruct (add_buffer m i b w0) as [_ Hm].
    destruct (add svc m i b w0) as [[m1 r] w1]. simpl in *. by rewrite IH. }
  split; [exact Hbuf | split; [exact Hlen|]].
  intros item imp w'.
  destruct (add_buffer (add_all svc (init store N) reqs w).1 item imp w') as [-> _].
  rewrite Hmax, Hlen. simpl max_short_term_items.
  destruct (Z.ltb_spec N (Z.of_nat (Nat.min (length reqs) (Z.to_nat N)) + 1));
    case_decide; try reflexivity; lia.
Qed.

End MemoryFacts.

(** Capacity 3, five items added: the buffer holds the last three. *)
Lemma add_keeps_newest_within_capacity_witness :
  Memory.short_term_memory Examples.memory_five
  = [Examples.note 3; Examples.note 4; Examples.note 5].
Proof.
  exact (proj1 (add_keeps_newest_within_capacity Examples.svc_up None 3
                  [(Examples.note 1, false); (Examples.note 2, true);
                   (Examples.note 3, false); (Examples.note 4, true);
                   (Examples.note 5, false)]
                  Examples.w0 ltac:(lia))).
Defined.

Section GetRecentFacts.
Import Py Effects Memory.

(** For [n] at least 1, [get_recent n] is the last [n] items of the buffer in
    the order they were added, the whole buffer when it holds fewer. *)
Lemma get_recent_positive (self : t) (n : Z) :
  1 <= n ->
  get_recent self n =
    drop (length (short_term_memory self) - Z.to_nat n) (short_term_memory self)
  /\ length (get_recent self n)
     = Nat.min (Z.to_nat n) (length (short_term_memory self)).
Proof.
  intros Hn. unfold get_recent, slice_from.
  destruct (Z.ltb_spec (- n) 0); [|lia].
  assert (Z.to_nat (Z.max 0 (- n + Z.of_nat (length (short_term_memory self))))
          = (length (short_term_memory self) - Z.to_nat n)%nat) as -> by lia.
  split; [reflexivity|]. rewrite length_drop. lia.
Qed.

(** C8, where the code parts from the claim: [get_recent 0] is the slice
    [short_term_memory[-0:]], the whole buffer; here all three items of a
    full memory of capacity 3 instead of none. *)
Theorem get_recent_zero_returns_whole_buffer :
  get_recent Examples.memory_five 0
  = [Examples.note 3; Examples.note 4; Examples.note 5]
  /\ forall self : t, get_recent self 0 = short_term_memory self.
Proof.
  split; [reflexivity|]. intros self. unfold get_recent, slice_from.
  change (- 0 <? 0) with false. cbv iota.
  by replace (Z.to_nat (Z.min (- 0) _)) with 0%nat by lia.
Qed.

(** The scenario of the design document: capacity 3, items 1 to 5 added in
    order; [get_recent 3] is 3, 4, 5. *)
Example get_recent_three_of_five :
  get_recent Examples.memory_five 3
  = [Examples.note 3; Examples.note 4; Examples.note 5].
Proof. reflexivity. Qed.

End GetRecentFacts.

(** ** Context tree *)

Section ThoughtAtomFacts.
Import Py Effects ThoughtAtom.

Lemma levels_consistent_Forall (c : string) (l : Z) (m : dict) (ch : list t) :
  levels_consistent (Atom c l m ch) <->
  Forall (fun x => level x = l + 1 /\ levels_consistent x) ch.
Proof.
  simpl. induction ch as [|x ch IH].
  - split; [constructor | done].
  - rewrite Forall_cons. tauto.
Qed.

Lemma init_some (c : string) (l : Z) (m : dict) : init c l (Some m) = Atom c l m [].
Proof. by destruct m. Qed.

Lemma from_dict_unfold (c : string) (l : Z) (md : option dict) (ds : list NodeDict) :
  from_dict (Node c l md (Some ds)) =
    fold_left (fun atom d => add_child atom (from_dict d)) ds
      (init c l (Some (default [] md))).
Proof.
  simpl. generalize (init c l (Some (default [] md))).
  induction ds as [|d ds IH]; intros atom; [reflexivity|]. simpl. apply IH.
Qed.

Lemma attach_children (c : string) (l : Z) (m : dict) (ds : list NodeDict) :
  forall pre,
    fold_left (fun atom d => add_child atom (from_dict d)) ds (Atom c l m pre) =
      Atom c l m (pre ++ map (fun d => set_level (l + 1) (from_dict d)) ds).
Proof.
  induction ds as [|d ds IH]; intros pre; simpl.
  - by rewrite app_nil_r.
  - unfold add_child at 2. simpl. rewrite IH, <- app_assoc. reflexivity.
Qed.

(** Serializing and reading back keeps the root as it is and gives every
    child the level of its parent plus one. *)
Lemma from_dict_to_dict_unfold (c : string) (l : Z) (m : dict) (ch : list t) :
  from_dict (to_dict (Atom c l m ch)) =
    Atom c l m (map (fun x => set_level (l + 1) (from_dict (to_dict x))) ch).
Proof.
  change (to_dict (Atom c l m ch)) with (Node c l (Some m) (Some (map to_dict ch))).
  rewrite from_dict_unfold. simpl default. rewrite init_some, attach_children.
  simpl. by rewrite map_map.
Qed.

Lemma from_dict_to_dict_level (a : t) : level (from_dict (to_dict a)) = level a.
Proof. destruct a. by rewrite from_dict_to_dict_unfold. Qed.


(** Whatever the levels, the round trip keeps contents, metadata and the
    order of the children, and the level of the root. *)
Lemma from_dict_to_dict_shape (a : t) :
  shape (from_dict (to_dict a)) = shape a.
Proof.
  induction a as [c l m ch IH] using atom_ind.
  rewrite from_dict_to_dict_unfold. simpl. f_equal.
  induction ch as [|x ch IHch]; [reflexivity|].
  apply Forall_cons in IH as [IHx IHrest].
  simpl. rewrite (IHch IHrest). f_equal.
  rewrite <- IHx. by destruct (from_dict (to_dict x)).
Qed.



(** The round trip gives back the tree only when its levels are consistent. *)
Lemma from_dict_to_dict_fixes (a : t) :
  from_dict (to_dict a) = a -> levels_consistent a.
Proof.
  induction a as [c l m ch IH] using atom_ind.
  rewrite from_dict_to_dict_unfold. intros Heq.
  apply levels_consistent_Forall.
  assert (Hch : map (fun x => set_level (l + 1) (from_dict (to_dict x))) ch = ch)
    by congruence.
  clear Heq. induction ch as [|x ch IHch]; [constructor|].
  apply Forall_cons in IH as [IHx IHrest].
  simpl in Hch. injection Hch as Hx Hrest.
  constructor; [|by apply IHch].
  assert (Hl : level x = l + 1) by (by rewrite <- Hx).
  split; [exact Hl|]. apply IHx.
  pose proof (from_dict_to_dict_level x) as Hlx.
  destruct (from_dict (to_dict x)) as [c' l' m' ch']. simpl in *.
  unfold set_level in Hx. simpl in Hx. congruence.
Qed.

(** The calls that [for_each] makes, when each [f x] makes [cost x] calls
    if it returns and between one and [cost x] calls if it raises; what it
    raises is what some [f x] raised. *)
Lemma for_each_calls {A B} (f : A -> M (outcome B)) (cost : A -> nat)
    (raised : exn -> Prop) (l : list A) :
  Forall (fun x => forall w,
            match (f x w).1 with
            | Return _ =>
                length (calls (f x w).2) = (length (calls w) + cost x)%nat
            | Raise e =>
                raised e
                /\ (length (calls w) < length (calls (f x w).2)
                                     <= length (calls w) + cost x)%nat
            end) l ->
  forall w,
    match (Comprehension.for_each f l w).1 with
    | Return ys =>
        length ys = length l
        /\ length (calls (Comprehension.for_each f l w).2)
           = (length (calls w) + sum_list (map cost l))%nat
    | Raise e =>
        raised e
        /\ (length (calls w) < length (calls (Comprehension.for_each f l w).2)
                             <= length (calls w) + sum_list (map cost l))%nat
    end.
Proof.
  induction 1 as [|x l Hx _ IH]; intros w.
  - simpl. lia.
  - assert (Hstep : Comprehension.for_each f (x :: l) w =
                    match f x w with
                    | (Return y, w1) =>
                        match Comprehension.for_each f l w1 with
                        | (Return ys, w2) => (Return (y :: ys), w2)
                        | (Raise e, w2) => (Raise e, w2)
                        end
                    | (Raise e, w1) => (Raise e, w1)
                    end).
    { simpl. unfold bind at 1. destruct (f x w) as [[y|e] w1]; [|reflexivity].
      unfold bind. fold (Comprehension.for_each f).
      by destruct (Comprehension.for_each f l w1) as [[ys|e] w2]. }
    rewrite Hstep. clear Hstep. specialize (Hx w).
    destruct (f x w) as [[y|e] w1]; simpl in Hx |- *; [|intuition lia].
    specialize (IH w1).
    destruct (Comprehension.for_each f l w1) as [[ys|e] w2]; simpl in IH |- *;
      intuition lia.
Qed.

(** [summarize] makes one call to the generation service for each node that
    has children when it returns. It raises only what the service raised
    outside [Exception], after one call at least. *)
Lemma summarize_calls (svc : Services) (llm_interface : LLMInterface.t) (a : t) :
  forall w,
    match (summarize svc llm_interface a w).1 with
    | Return _ =>
        length (calls (summarize svc llm_interface a w).2)
        = (length (calls w) + inner_nodes a)%nat
    | Raise e =>
        (is_Exception e = false
         /\ exists h r, litellm_completion svc h r = Raise e)
        /\ (length (calls w) < length (calls (summarize svc llm_interface a w).2)
                             <= length (calls w) + inner_nodes a)%nat
    end.
Proof.
  induction a as [c l m ch IH] using atom_ind. intros w.
  destruct ch as [|x ch]; [simpl; lia|].
  change (inner_nodes (Atom c l m (x :: ch)))
    with (S (sum_list (map inner_nodes (x :: ch)))).
  change (summarize svc llm_interface (Atom c l m (x :: ch)) w)
    with (bind (Comprehension.for_each (summarize svc llm_interface) (x :: ch))
            (fun r => match r with
                      | Raise e => ret (Raise e)
                      | Return child_summaries =>
                          LLMInterface.generate svc llm_interface
                            (summary_prompt (join (newline +:+ newline) child_summaries))
                            None LLMInterface.default_temperature
                      end) w).
  unfold bind.
  pose proof (for_each_calls (summarize svc llm_interface) inner_nodes
                (fun e => is_Exception e = false
                          /\ exists h r, litellm_completion svc h r = Raise e)
                (x :: ch) IH w) as Heach.
  destruct (Comprehension.for_each (summarize svc llm_interface) (x :: ch) w)
    as [[ss|e] w1]; cbn [fst snd] in Heach |- *;
    [|unfold ret; cbn [fst snd]; intuition lia].
  destruct (generate_outcome svc llm_interface
              (summary_prompt (join (newline +:+ newline) ss)) None
              LLMInterface.default_temperature w1) as [Hcalls Hout].
  destruct (LLMInterface.generate svc llm_interface _ None _ w1) as [[text|e] w2];
    cbn [fst snd] in Hcalls, Hout |- *; rewrite Hcalls, length_app; simpl length.
  - lia.
  - destruct Hout as [He Hsvc]. split; [split; [exact He | eauto] | lia].
Qed.

(** A node with children costs at least one call to the service. *)
Lemma summarize_inner_node_calls (svc : Services) (llm_interface : LLMInterface.t)
    (c : string) (l : Z) (m : dict) (x : t) (ch : list t) (w : World) :
  (length (calls w) <
   length (calls (summarize svc llm_interface (Atom c l m (x :: ch)) w).2))%nat.
Proof.
  pose proof (summarize_calls svc llm_interface (Atom c l m (x :: ch)) w) as H.
  change (inner_nodes (Atom c l m (x :: ch)))
    with (S (sum_list (map inner_nodes (x :: ch)))) in H.
  destruct (summarize svc llm_interface (Atom c l m (x :: ch)) w).1; intuition lia.
Qed.

(** C6: for every node without children, [summarize] returns the content of
    the node unchanged and leaves the world as it was: no call to the
    generation service is recorded and nothing is printed. *)
Theorem summarize_leaf (svc : Services) (llm_interface : LLMInterface.t)
    (a : t) (w : World) :
  children a = [] ->
  summarize svc llm_interface a w = (Return (content a), w).
Proof.
  destruct a as [c l m ch]. simpl. intros ->. reflexivity.
Qed.

(** A scene without children, summarized with the services answering. *)
Lemma summarize_leaf_witness :
  summarize Examples.svc_up Examples.llm
    (Atom "The hero leaves home" 2 [("kind", PStr "scene")] []) Examples.w0
  = (Return "The hero leaves home", Examples.w0).
Proof.
  exact (summarize_leaf Examples.svc_up Examples.llm
           (Atom "The hero leaves home" 2 [("kind", PStr "scene")] [])
           Examples.w0 eq_refl).
Defined.

(** A node with children does call the service: here once, for the root. *)
Example summarize_inner_node_calls_service :
  length (calls (summarize Examples.svc_up Examples.llm
                   (Atom "novel" 0 [] [Atom "chapter 1" 1 [] []; Atom "chapter 2" 1 [] []])
                   Examples.w0).2)
  = 1%nat.
Proof. reflexivity. Qed.

End ThoughtAtomFacts.

Section ThoughtTreeFacts.
Import Py Effects.

Lemma add_below_level (path : list nat) (c : string) (md : option dict)
    (node : ThoughtAtom.t) :
  ThoughtAtom.level (ThoughtTree.add_below path c md node) = ThoughtAtom.level node.
Proof. destruct path, node; reflexivity. Qed.

Lemma add_below_levels_consistent (path : list nat) (c : string) (md : option dict) :
  forall node,
    ThoughtAtom.levels_consistent node ->
    ThoughtAtom.levels_consistent (ThoughtTree.add_below path c md node).
Proof.
  induction path as [|i path IH]; intros [cn l m ch] Hlv.
  - apply levels_consistent_Forall in Hlv.
    unfold ThoughtTree.add_below, ThoughtAtom.add_child. simpl.
    apply (proj2 (levels_consistent_Forall cn l m _)).
    apply Forall_app. split; [exact Hlv|].
    apply Forall_singleton. split; [reflexivity|].
    destruct md as [[|kv md]|]; simpl; done.
  - apply levels_consistent_Forall in Hlv. simpl.
    apply (proj2 (levels_consistent_Forall cn l m _)).
    revert i. induction ch as [|x ch IHch]; intros i; [constructor|].
    apply Forall_cons in Hlv as [[Hx Hcx] Hrest].
    destruct i as [|i]; simpl.
    + constructor; [|exact Hrest]. split; [by rewrite add_below_level | by apply IH].
    + constructor; [done | apply IHch; exact Hrest].
Qed.

(** Every tree built with [add_thought] is a context tree: each child is one
    level below its parent. *)
Lemma built_levels_consistent (tree : ThoughtTree.t) :
  ThoughtTree.built tree -> ThoughtAtom.levels_consistent (ThoughtTree.root tree).
Proof.
  induction 1 as [rc cfg | self c parent md _ IH].
  - simpl. done.
  - simpl. by apply add_below_levels_consistent.
Qed.

End ThoughtTreeFacts.

(** * Further properties of the code *)

(** ** Task manager: lookup *)

Section TaskLookupFacts.
Import Py Effects TaskManager.

(** [get_task_by_id] answers with the first task of the list that carries the
    id, and with [None] exactly when no task carries it. *)
Theorem get_task_by_id_first_match (self : t) (task_id : string) :
  match get_task_by_id self task_id with
  | Some task =>
      exists earlier later,
        tasks self = earlier ++ task :: later
        /\ eq_str (dict_get task "id") task_id = true
        /\ Forall (fun t => eq_str (dict_get t "id") task_id = false) earlier
  | None => Forall (fun t => eq_str (dict_get t "id") task_id = false) (tasks self)
  end.
Proof.
  unfold get_task_by_id. induction (tasks self) as [|x l IH]; simpl.
  - constructor.
  - destruct (eq_str (dict_get x "id") task_id) eqn:Hx.
    + exists [], l. by repeat split.
    + destruct (find_task l task_id) as [task|].
      * destruct IH as (earlier & later & -> & Hid & Hbefore).
        exists (x :: earlier), later. repeat split; [done|]. by constructor.
      * by constructor.
Qed.

(** A task submitted under an id that no task carries yet is the one that
    [get_task_by_id] returns for that id afterwards. *)
Theorem add_task_then_get_task_by_id (self : t) (task : dict) (task_id : string) :
  get_task_by_id self task_id = None ->
  dict_get task "id" = Some (PStr task_id) ->
  get_task_by_id (add_task self task).1 task_id = Some task.
Proof.
  intros Hnone Hid. unfold get_task_by_id in *. simpl.
  rewrite find_task_app, Hnone, Hid. simpl. by rewrite String.eqb_refl.
Qed.

(** [B] is submitted to a manager that holds [A] only. *)
Lemma add_task_then_get_task_by_id_witness :
  get_task_by_id (add_task Examples.manager_A Examples.task_B).1 "B"
  = Some Examples.task_B.
Proof.
  exact (add_task_then_get_task_by_id Examples.manager_A Examples.task_B "B"
           eq_refl eq_refl).
Defined.

End TaskLookupFacts.

(** ** Bounded memory: reading and persisting *)

(** [get_recent 2] of a full memory of capacity 3. *)
Lemma get_recent_positive_witness :
  Memory.get_recent Examples.memory_five 2
  = [Examples.note 4; Examples.note 5].
Proof.
  exact (proj1 (get_recent_positive Examples.memory_five 2 ltac:(lia))).
Defined.

Section MemoryStoreFacts.
Import Py Effects Memory.
Variable svc : Services.

(** An item added without the [important] flag reaches neither the store nor
    any service: the store and the world are as before. *)
Theorem add_unimportant_leaves_store_and_world (self : t) (item : dict) (w : World) :
  (add svc self item false w).2 = w
  /\ vector_db (add svc self item false w).1.1 = vector_db self
  /\ (add svc self item false w).1.2 = Return tt.
Proof.
  unfold add.
  assert (Hpop : exists x rest, pop0 (short_term_memory self ++ [item]) = Some (x, rest)).
  { destruct (short_term_memory self); simpl; eauto. }
  destruct Hpop as (x & rest & ->).
  by destruct (max_short_term_items self <? _).
Qed.

(** What [add] does with an important item when a store is attached: the
    buffer is updated as for any item, the item goes to [VectorDB.add], and
    an exception of the store becomes the outcome of [add]. *)
Lemma add_important_store (self : t) (store : VectorDB.t) (item : dict) (w : World) :
  vector_db self = Some store ->
  (add svc self item true w).1 =
    ({| short_term_memory := short_term_memory (add svc self item false w).1.1;
        vector_db := Some (VectorDB.add svc store item w).1.1;
        max_short_term_items := max_short_term_items self |},
     match (VectorDB.add svc store item w).1.2 with
     | Return _ => Return tt
     | Raise e => Raise e
     end)
  /\ (add svc self item true w).2 = (VectorDB.add svc store item w).2.
Proof.
  intros Hstore. unfold add.
  assert (Hpop : exists x rest,
             pop0 (short_term_memory self ++ [item]) = Some (x, rest)).
  { destruct (short_term_memory self); simpl; eauto. }
  destruct Hpop as (x & rest & ->).
  destruct (max_short_term_items self <? _); simpl; rewrite Hstore;
    unfold bind, ret;
    by destruct (VectorDB.add svc store item w) as [[s' r] w'].
Qed.

(** An important item with content, added to a memory whose store has an open
    connection, is handed to the store whatever the capacity of the buffer.
    When [add] returns, the table has gained one row under the next key: the
    content of the item, the embedding that [get_embedding] gave, which has
    the dimension of the store, and the other entries of the item as
    metadata. Otherwise the embedding did not fit the column, or the
    embedding service was interrupted: the exception reaches the caller of
    [add] and the store is as before. Either way the buffer has taken the
    item. *)
Theorem add_important_persists (self : t) (store : VectorDB.t)
    (conn : VectorDB.Connection) (item : dict) (w : World) :
  vector_db self = Some store ->
  VectorDB.connection store = Some conn ->
  truthy (dict_get_default item "content" (PStr "")) = true ->
  short_term_memory (add svc self item true w).1.1
  = short_term_memory (add svc self item false w).1.1
  /\ match (add svc self item true w).1.2 with
     | Return _ =>
         exists embedding,
           (VectorDB.get_embedding svc store
              (dict_get_default item "content" (PStr "")) w).1 = Return embedding
           /\ Z.of_nat (length embedding) = VectorDB.dimension store
           /\ vector_db (add svc self item true w).1.1 =
                Some {| VectorDB.connection :=
                          Some {| VectorDB.table :=
                                    VectorDB.table conn ++
                                    [ {| VectorDB.row_id := VectorDB.next_id conn;
                                         VectorDB.row_content :=
                                           dict_get_default item "content" (PStr "");
                                         VectorDB.row_embedding := embedding;
                                         VectorDB.row_metadata :=
                                           filter (fun kv =>
                                                     String.eqb kv.1 "content" = false)
                                                  item |} ];
                                  VectorDB.next_id := VectorDB.next_id conn + 1 |};
                        VectorDB.embedding_model := VectorDB.embedding_model store;
                        VectorDB.table_name := VectorDB.table_name store;
                        VectorDB.dimension := VectorDB.dimension store |}
     | Raise e => vector_db (add svc self item true w).1.1 = Some store
     end.
Proof.
  intros Hstore Hconn Hcontent.
  destruct (add_important_store self store item w Hstore) as [Hmem _].
  rewrite Hmem. cbn [fst snd short_term_memory vector_db].
  split; [reflexivity|].
  pose proof (add_outcome svc store item w) as Hadd.
  destruct ((VectorDB.add svc store item w).1.2) as [[|]|e].
  - destruct Hadd as (conn' & emb & Hc & _ & Hemb & Hlen & ->).
    rewrite Hconn in Hc. injection Hc as <-. by exists emb.
  - destruct Hadd as [_ [H|H]]; congruence.
  - destruct Hadd as [-> _]. reflexivity.
Qed.

End MemoryStoreFacts.

(** A memory of capacity 0 with [Examples.store0] attached, the services
    answering: the item is dropped from the buffer at once and stored all the
    same. *)
Lemma add_important_persists_witness :
  Memory.short_term_memory
    (Memory.add Examples.svc_up (Memory.init (Some Examples.store0) 0)
       Examples.item_storm true Examples.w0).1.1 = []
  /\ exists embedding,
       (VectorDB.get_embedding Examples.svc_up Examples.store0
          (Py.PStr "A storm hits the harbour") Examples.w0).1
       = Effects.Return embedding
       /\ Z.of_nat (length embedding) = 3
       /\ Memory.vector_db
            (Memory.add Examples.svc_up (Memory.init (Some Examples.store0) 0)
               Examples.item_storm true Examples.w0).1.1 =
            Some {| VectorDB.connection :=
                      Some {| VectorDB.table :=
                                [ {| VectorDB.row_id := 1;
                                     VectorDB.row_content :=
                                       Py.PStr "A storm hits the harbour";
                                     VectorDB.row_embedding := embedding;
                                     VectorDB.row_metadata :=
                                       [("type", Py.PStr "event")] |} ];
                              VectorDB.next_id := 2 |};
                    VectorDB.embedding_model := "ollama/nomic-embed-text";
                    VectorDB.table_name := "novel_knowledge";
                    VectorDB.dimension := 3 |}.
Proof.
  exact (add_important_persists Examples.svc_up
           (Memory.init (Some Examples.store0) 0) Examples.store0
           {| VectorDB.table := []; VectorDB.next_id := 1 |}
           Examples.item_storm Examples.w0 eq_refl eq_refl eq_refl).
Defined.

(** The embedding service answers with a vector of dimension 1 and the column
    has dimension 3: the engine refuses the row, the exception reaches the
    caller of [Memory.add], the table stays empty and the buffer holds the
    item. *)
Example add_refuses_short_embedding :
  (Memory.add Examples.svc_short (Memory.init (Some Examples.store0) 3)
     Examples.item_storm true Examples.w0).1
  = ({| Memory.short_term_memory := [Examples.item_storm];
        Memory.vector_db := Some Examples.store0;
        Memory.max_short_term_items := 3 |},
     Effects.Raise {| Effects.exn_class := "DataException";
                      Effects.exn_str := "expected 3 dimensions, not 1" |}).
Proof. vm_compute. reflexivity. Qed.

(** ** Similarity store: what [add] and [search] do at the edges *)

Section VectorDBEdgeFacts.
Import Py Effects VectorDB.
Variable svc : Services.

(** Without a connection, or for an item whose content is missing or empty,
    [add] returns [False]: the store is unchanged and no service is called. *)
Theorem add_without_connection_or_content (self : t) (item : dict) (w : World) :
  connection self = None
  \/ truthy (dict_get_default item "content" (PStr "")) = false ->
  add svc self item w = ((self, Return false), w).
Proof.
  intros [Hconn | Hcontent]; unfold add.
  - by rewrite Hconn.
  - destruct (connection self); [|reflexivity]. cbv zeta. by rewrite Hcontent.
Qed.

(** [get_embedding] makes exactly one call to a service. *)
Lemma get_embedding_one_call (self : t) (text : pyval) (w : World) :
  length (calls (get_embedding svc self text w).2) = S (length (calls w)).
Proof.
  unfold get_embedding. run_effects.
  destruct (String.prefix _ _).
  - destruct (ollama_embeddings svc _ _ _) as [v|e]; [|destruct (is_Exception e)];
      simpl; rewrite length_app; simpl; lia.
  - destruct (litellm_embedding svc _ _ _) as [v|e]; [|destruct (is_Exception e)];
      simpl; rewrite length_app; simpl; lia.
Qed.

(** What [search] does on an open connection: one call to the embedding
    service, then the query that the engine rejects. *)
Lemma search_open_connection (self : t) (conn : Connection) (query : string)
    (n : Z) (w : World) :
  connection self = Some conn ->
  search svc self query n w =
    (match (get_embedding svc self (PStr query) w).1 with
     | Return [] => Raise invalid_vector_literal
     | Return (_ :: _) => Raise no_distance_operator
     | Raise e => Raise e
     end, (get_embedding svc self (PStr query) w).2).
Proof.
  intros Hconn. unfold search. rewrite Hconn. unfold bind, ret.
  destruct (get_embedding svc self (PStr query) w) as [[qe|e] w']; [|reflexivity].
  rewrite select_nearest_raises. by destruct qe.
Qed.

End VectorDBEdgeFacts.

(** An item without content is offered to an open store. *)
Lemma add_without_connection_or_content_witness :
  VectorDB.add Examples.svc_up Examples.store0 [("type", Py.PStr "event")] Examples.w0
  = ((Examples.store0, Effects.Return false), Examples.w0).
Proof.
  exact (add_without_connection_or_content Examples.svc_up Examples.store0
           [("type", Py.PStr "event")] Examples.w0 (or_intror eq_refl)).
Defined.

Section MemoryOnlineFacts.
Import Py Effects.
Variable svc : Services.
Variable bi : Builtins.t.

(** A memory whose store has an open connection cannot be searched.
    [Memory.search] hands the query to the store and does not look at the
    buffer; the embedding service is asked once, and the call ends in an
    exception whatever the buffer and the table hold and for every [n]: the
    engine's [UndefinedFunction] when the embedding of the query is a vector
    that is not empty, and the exception of the embedding service when that
    one reaches [search]. *)
Theorem search_with_open_store_raises (self : Memory.t) (store : VectorDB.t)
    (conn : VectorDB.Connection) (query : string) (n : Z) (w : World) :
  Memory.vector_db self = Some store ->
  VectorDB.connection store = Some conn ->
  (exists e, (Memory.search svc bi self query n w).1 = Raise e)
  /\ length (calls (Memory.search svc bi self query n w).2) = S (length (calls w))
  /\ (forall x qe,
        (VectorDB.get_embedding svc store (PStr query) w).1 = Return (x :: qe) ->
        (Memory.search svc bi self query n w).1
        = Raise {| exn_class := "UndefinedFunction";
                   exn_str := "operator does not exist: vector <=> numeric[]" |})
  /\ (forall e,
        (VectorDB.get_embedding svc store (PStr query) w).1 = Raise e ->
        is_Exception e = false
        /\ (Memory.search svc bi self query n w).1 = Raise e).
Proof.
  intros Hstore Hconn. unfold Memory.search. rewrite Hstore.
  rewrite (search_open_connection svc store conn query n w Hconn).
  cbn [fst snd].
  pose proof (get_embedding_outcome svc store (PStr query) w) as Hout.
  split; [|split; [|split]].
  - destruct (VectorDB.get_embedding svc store (PStr query) w).1 as [[|x qe]|e];
      eauto.
  - apply get_embedding_one_call.
  - by intros x qe ->.
  - intros e He. rewrite He in Hout |- *. by split.
Qed.

End MemoryOnlineFacts.

(** The store of three records is attached to a memory that holds three
    scenes, two of them about a storm. *)
Lemma search_with_open_store_raises_witness :
  (exists e,
     (Memory.search Examples.svc_up Examples.builtins Examples.memory_online
        "storm" 5 Examples.w0).1 = Effects.Raise e)
  /\ length (Effects.calls
               (Memory.search Examples.svc_up Examples.builtins
                  Examples.memory_online "storm" 5 Examples.w0).2) = 1%nat
  /\ (forall x qe,
        (VectorDB.get_embedding Examples.svc_up Examples.store_three
           (Py.PStr "storm") Examples.w0).1 = Effects.Return (x :: qe) ->
        (Memory.search Examples.svc_up Examples.builtins Examples.memory_online
           "storm" 5 Examples.w0).1
        = Effects.Raise {| Effects.exn_class := "UndefinedFunction";
                           Effects.exn_str :=
                             "operator does not exist: vector <=> numeric[]" |})
  /\ (forall e,
        (VectorDB.get_embedding Examples.svc_up Examples.store_three
           (Py.PStr "storm") Examples.w0).1 = Effects.Raise e ->
        Effects.is_Exception e = false
        /\ (Memory.search Examples.svc_up Examples.builtins Examples.memory_online
              "storm" 5 Examples.w0).1 = Effects.Raise e).
Proof.
  exact (search_with_open_store_raises Examples.svc_up Examples.builtins
           Examples.memory_online Examples.store_three
           {| VectorDB.table := Examples.table_three; VectorDB.next_id := 4 |}
           "storm" 5 Examples.w0 eq_refl eq_refl).
Defined.

(** ** Context tree: building, reading back, searching, summarizing *)

(** The tree of [Examples.tree_novel] was built with [add_thought]. *)
Lemma built_levels_consistent_witness :
  ThoughtAtom.levels_consistent (ThoughtTree.root Examples.tree_novel).
Proof.
  exact (built_levels_consistent Examples.tree_novel
           (ThoughtTree.built_add _ _ _ _
              (ThoughtTree.built_add _ _ _ _
                 (ThoughtTree.built_add _ _ _ _
                    (ThoughtTree.built_init "novel" []))))).
Defined.

(** The tree of [Examples.tree_novel] is read back as it was written. *)
Lemma from_dict_to_dict_fixes_witness :
  ThoughtAtom.levels_consistent (ThoughtTree.root Examples.tree_novel).
Proof.
  exact (from_dict_to_dict_fixes (ThoughtTree.root Examples.tree_novel) eq_refl).
Defined.

Section ThoughtAtomMoreFacts.
Import Py Effects ThoughtAtom.

(** [from_dict] on any record: content and level of the root are the
    recorded ones, absent metadata or children read as empty, and every child
    is what [from_dict] makes of its record with the level replaced by the
    level of the root plus one, whatever level the record gives it. *)
Theorem from_dict_root_and_children (c : string) (l : Z) (md : option dict)
    (ds : option (list NodeDict)) :
  content (from_dict (Node c l md ds)) = c
  /\ level (from_dict (Node c l md ds)) = l
  /\ metadata (from_dict (Node c l md ds)) = default [] md
  /\ children (from_dict (Node c l md ds))
     = map (fun d => set_level (l + 1) (from_dict d)) (default [] ds)
  /\ Forall (fun child => level child = l + 1)
            (children (from_dict (Node c l md ds))).
Proof.
  assert (Heq : from_dict (Node c l md ds) =
                Atom c l (default [] md)
                  (map (fun d => set_level (l + 1) (from_dict d)) (default [] ds))).
  { destruct ds as [ds|].
    - rewrite from_dict_unfold, init_some, attach_children. reflexivity.
    - simpl. by destruct md as [[|kv m]|]. }
  rewrite Heq. simpl. repeat split.
  apply Forall_map, Forall_true. intros d. reflexivity.
Qed.

(** The round trip through [to_dict] keeps, for every tree, the contents, the
    metadata and the order of the children at every node, and the level of
    the root. *)
Theorem from_dict_to_dict_keeps_shape (a : t) :
  shape (from_dict (to_dict a)) = shape a
  /\ level (from_dict (to_dict a)) = level a.
Proof.
  split; [apply from_dict_to_dict_shape | apply from_dict_to_dict_level].
Qed.

Lemma find_each_flat_map (key : string) (value : pyval) (cs : list t) :
  (fix each (cs : list t) : list t :=
     match cs with
     | [] => []
     | child :: cs' => find_by_metadata key value child ++ each cs'
     end) cs
  = flat_map (find_by_metadata key value) cs.
Proof. induction cs as [|x cs IH]; simpl; [reflexivity | by rewrite IH]. Qed.

Lemma filter_flat_map {A B} (P : B -> Prop) `{forall x, Decision (P x)}
    (f : A -> list B) (l : list A) :
  filter P (flat_map f l) = flat_map (fun x => filter P (f x)) l.
Proof.
  induction l as [|x l IH]; simpl; [reflexivity|].
  by rewrite filter_app, IH.
Qed.

Lemma find_by_metadata_filter (key : string) (value : pyval) (a : t) :
  find_by_metadata key value a = filter (has_metadata key value) (preorder a).
Proof.
  induction a as [c l m ch IH] using atom_ind.
  change (find_by_metadata key value (Atom c l m ch))
    with ((if py_eq (dict_get_default m key PNone) value
           then [Atom c l m ch] else [])
          ++ (fix each (cs : list t) : list t :=
                match cs with
                | [] => []
                | child :: cs' => find_by_metadata key value child ++ each cs'
                end) ch).
  rewrite find_each_flat_map. simpl preorder. rewrite filter_cons.
  rewrite filter_flat_map.
  assert (Hch : flat_map (find_by_metadata key value) ch
                = flat_map (fun x => filter (has_metadata key value) (preorder x)) ch).
  { induction ch as [|x ch IHch]; [reflexivity|].
    apply Forall_cons in IH as [Hx Hrest]. simpl. by rewrite Hx, IHch. }
  rewrite Hch.
  destruct (py_eq (dict_get_default m key PNone) value) eqn:Hm;
    case_decide as Hd; unfold has_metadata in Hd; simpl in Hd;
    try congruence; reflexivity.
Qed.

(** [find_by_metadata] returns exactly the nodes of the tree whose metadata
    hold the value under the key: the list of the nodes, each parent before
    its children and the children in the order they were attached, with the
    nodes that fail the test left out, so that a node that occurs twice in
    the tree is returned twice. In particular all the nodes that pass the
    test are returned and no other. *)
Theorem find_by_metadata_sound_complete (key : string) (value : pyval) (a : t) :
  find_by_metadata key value a = filter (has_metadata key value) (preorder a)
  /\ (forall node, node ∈ find_by_metadata key value a <->
                   node ∈ preorder a /\ has_metadata key value node)
  /\ find_by_metadata key value a `sublist_of` preorder a.
Proof.
  rewrite find_by_metadata_filter. split; [reflexivity|]. split.
  - intros node. rewrite list_elem_of_filter. tauto.
  - apply sublist_filter.
Qed.

(** A search for the value [None] finds the nodes that lack the key: in a
    tree where no node has the key, every node is returned. *)
Theorem find_by_metadata_none_finds_missing (key : string) (a : t) :
  Forall (fun node => dict_get (metadata node) key = None) (preorder a) ->
  find_by_metadata key PNone a = preorder a.
Proof.
  intros Hall. rewrite find_by_metadata_filter.
  induction (preorder a) as [|x l IH]; [reflexivity|].
  apply Forall_cons in Hall as [Hx Hl].
  rewrite filter_cons, (IH Hl).
  case_decide as Hd; [reflexivity|]. exfalso. apply Hd.
  unfold has_metadata, dict_get_default. by rewrite Hx.
Qed.

Lemma find_by_metadata_shape (key : string) (value : pyval) (a : t) :
  forall b, shape a = shape b ->
    map shape (find_by_metadata key value a)
    = map shape (find_by_metadata key value b).
Proof.
  induction a as [c l m ch IH] using atom_ind. intros [c' l' m' ch'] Hs.
  simpl in Hs. injection Hs as -> -> Hch.
  change (find_by_metadata key value (Atom c' l m' ch))
    with ((if py_eq (dict_get_default m' key PNone) value
           then [Atom c' l m' ch] else [])
          ++ (fix each (cs : list t) : list t :=
                match cs with
                | [] => []
                | child :: cs' => find_by_metadata key value child ++ each cs'
                end) ch).
  change (find_by_metadata key value (Atom c' l' m' ch'))
    with ((if py_eq (dict_get_default m' key PNone) value
           then [Atom c' l' m' ch'] else [])
          ++ (fix each (cs : list t) : list t :=
                match cs with
                | [] => []
                | child :: cs' => find_by_metadata key value child ++ each cs'
                end) ch').
  rewrite !find_each_flat_map, !map_app. f_equal.
  - destruct (py_eq _ _); [|reflexivity]. simpl. by rewrite Hch.
  - clear c' l l' m'. revert ch' Hch.
    induction ch as [|x ch IHch]; intros [|y ch'] Hch; try discriminate;
      [reflexivity|].
    apply Forall_cons in IH as [Hx Hrest]. simpl in Hch.
    injection Hch as Hxy Hch. simpl. rewrite !map_app.
    by rewrite (Hx y Hxy), (IHch Hrest ch' Hch).
Qed.

(** A tree written with [to_dict] and read back answers [find_by_metadata]
    with the same nodes in the same order, up to their levels; this holds for
    every tree. *)
Theorem find_by_metadata_after_round_trip (key : string) (value : pyval) (a : t) :
  map shape (find_by_metadata key value (from_dict (to_dict a)))
  = map shape (find_by_metadata key value a).
Proof. apply find_by_metadata_shape, from_dict_to_dict_shape. Qed.


End ThoughtAtomMoreFacts.

(** No node of the tree of [Examples.tree_novel] has a key ["mood"]. *)
Lemma find_by_metadata_none_finds_missing_witness :
  ThoughtAtom.find_by_metadata "mood" Py.PNone (ThoughtTree.root Examples.tree_novel)
  = ThoughtAtom.preorder (ThoughtTree.root Examples.tree_novel).
Proof.
  exact (find_by_metadata_none_finds_missing "mood"
           (ThoughtTree.root Examples.tree_novel)
           ltac:(repeat constructor)).
Defined.

(** ** Language model interface: chat and streaming *)

Section LLMInterfaceMoreFacts.
Import Py Effects LLMInterface.

(** [generate] is [chat] on the system message followed by the prompt: when
    the service answers, the two return the same text and leave the same
    world; when it fails with an exception derived from [Exception], each
    returns its own error line; an exception outside [Exception] leaves both
    as it is. In every case both record the same call. *)
Theorem generate_is_chat (svc : Services) (self : t) (prompt : string)
    (system_message : option string) (temperature : Q) (w : World) :
  match litellm_completion svc (calls w)
          (completion_request self prompt system_message temperature) with
  | Return content =>
      generate svc self prompt system_message temperature w
      = chat svc self
          (req_messages (completion_request self prompt system_message temperature))
          temperature w
      /\ (generate svc self prompt system_message temperature w).1 = Return content
  | Raise e =>
      (if is_Exception e then
         (generate svc self prompt system_message temperature w).1
         = Return ("Error generating text: " +:+ exn_str e)
         /\ (chat svc self
               (req_messages
                  (completion_request self prompt system_message temperature))
               temperature w).1
            = Return ("Error in chat: " +:+ exn_str e)
       else
         generate svc self prompt system_message temperature w
         = chat svc self
             (req_messages (completion_request self prompt system_message temperature))
             temperature w
         /\ (generate svc self prompt system_message temperature w).1 = Raise e)
      /\ calls (generate svc self prompt system_message temperature w).2
         = calls (chat svc self
                    (req_messages
                       (completion_request self prompt system_message temperature))
                    temperature w).2
  end.
Proof.
  unfold generate, chat. run_effects.
  change (chat_request self
            (req_messages (completion_request self prompt system_message temperature))
            temperature)
    with (completion_request self prompt system_message temperature).
  destruct (litellm_completion svc (calls w) _) as [content|e]; simpl;
    [by split|].
  destruct (is_Exception e); simpl; by repeat split.
Qed.



End LLMInterfaceMoreFacts.

(** ** Similarity store: keys, deletion, clearing *)

Section VectorDBAdminFacts.
Import Py Effects VectorDB.
Variable svc : Services.

(** [add] either leaves the store as it is or inserts one row. *)
Lemma add_result (self : t) (item : dict) (w : World) :
  (add svc self item w).1.1 = self
  \/ exists conn embedding,
       connection self = Some conn
       /\ truthy (dict_get_default item "content" (PStr "")) = true
       /\ (add svc self item w).1.1 =
            {| connection :=
                 Some {| table := table conn ++
                           [ {| row_id := next_id conn;
                                row_content := dict_get_default item "content" (PStr "");
                                row_embedding := embedding;
                                row_metadata :=
                                  filter (fun kv => String.eqb kv.1 "content" = false)
                                         item |} ];
                         next_id := next_id conn + 1 |};
               embedding_model := embedding_model self;
               table_name := table_name self;
               dimension := dimension self |}.
Proof.
  pose proof (add_outcome svc self item w) as H.
  destruct ((add svc self item w).1.2) as [[|]|e].
  - destruct H as (conn & emb & Hconn & Hc & _ & _ & Heq). right. by exists conn, emb.
  - destruct H as [-> _]. by left.
  - destruct H as [Heq _]. by left.
Qed.

Lemma filter_fresh_key (rows : list Row) (k : Z) :
  Forall (fun r => row_id r < k) rows ->
  filter (fun r => row_id r <> k) rows = rows.
Proof.
  induction 1 as [|r rows Hr _ IH]; [reflexivity|].
  rewrite filter_cons, IH. case_decide; [reflexivity | lia].
Qed.

(** The keys of the rows stay pairwise distinct, and below the next value of
    the sequence, through [add], [delete] and [clear]. *)
Theorem keys_stay_fresh (self : t) (item : dict) (item_id : Z) (w : World) :
  keys_fresh self ->
  keys_fresh (add svc self item w).1.1
  /\ keys_fresh (delete self item_id).1
  /\ keys_fresh (clear self).1.
Proof.
  intros Hfresh. split; [|split].
  - destruct (add_result self item w) as [-> | (conn & emb & Hconn & _ & ->)];
      [exact Hfresh|].
    unfold keys_fresh in *. rewrite Hconn in Hfresh. simpl.
    destruct Hfresh as [Hnodup Hbelow]. split.
    + rewrite fmap_app. simpl. apply NoDup_app. split; [exact Hnodup|].
      split; [|apply NoDup_singleton].
      intros k Hk Hk'. apply list_elem_of_singleton in Hk'. subst k.
      apply list_elem_of_fmap in Hk as (r & Hr & Hin).
      rewrite Forall_forall in Hbelow. specialize (Hbelow r Hin). lia.
    + apply Forall_app. split.
      * eapply Forall_impl; [exact Hbelow|]. simpl. intros; lia.
      * repeat constructor. simpl. lia.
  - unfold keys_fresh, delete in *.
    destruct (connection self) as [conn|] eqn:Hc; simpl; [|by rewrite Hc].
    destruct Hfresh as [Hnodup Hbelow]. split.
    + eapply sublist_NoDup; [exact Hnodup|].
      apply fmap_sublist, sublist_filter.
    + rewrite Forall_forall in Hbelow |- *. intros r Hr.
      apply list_elem_of_filter in Hr as [_ Hr]. by apply Hbelow.
  - unfold keys_fresh, clear in *.
    destruct (connection self) as [conn|] eqn:Hc; simpl; [|by rewrite Hc].
    split; constructor.
Qed.

(** On an open connection [delete] returns [True], also when no row has the
    key. The rows with the key are gone, the others stay in their order, and
    the sequence of keys is not touched. *)
Theorem delete_removes_key (self : t) (conn : Connection) (item_id : Z) :
  connection self = Some conn ->
  (delete self item_id).2 = Return true
  /\ exists conn',
       connection (delete self item_id).1 = Some conn'
       /\ (forall r, r ∈ table conn' <-> r ∈ table conn /\ row_id r <> item_id)
       /\ table conn' `sublist_of` table conn
       /\ next_id conn' = next_id conn
       /\ (Forall (fun r => row_id r <> item_id) (table conn) ->
           table conn' = table conn).
Proof.
  intros Hconn. unfold delete. rewrite Hconn. simpl. split; [reflexivity|].
  eexists. split; [reflexivity|]. simpl. split; [|split; [|split]].
  - intros r. rewrite list_elem_of_filter. tauto.
  - apply sublist_filter.
  - reflexivity.
  - intros Hall. induction Hall as [|r rows Hr _ IH]; [reflexivity|].
    rewrite filter_cons, IH. by case_decide.
Qed.

(** When [add] has returned [True], deleting the key it has just given to
    the item brings the table back to what it was; the key is not given out
    again. *)
Theorem add_then_delete (self : t) (conn : Connection) (item : dict) (w : World) :
  keys_fresh self ->
  connection self = Some conn ->
  (add svc self item w).1.2 = Return true ->
  connection (delete (add svc self item w).1.1 (next_id conn)).1
  = Some {| table := table conn; next_id := next_id conn + 1 |}.
Proof.
  intros Hfresh Hconn Hret.
  pose proof (add_outcome svc self item w) as H. rewrite Hret in H.
  destruct H as (conn' & emb & Hconn' & _ & _ & _ & ->).
  rewrite Hconn in Hconn'. injection Hconn' as <-.
  unfold delete. simpl. f_equal. f_equal.
  unfold keys_fresh in Hfresh. rewrite Hconn in Hfresh.
  destruct Hfresh as [_ Hbelow].
  rewrite filter_app, (filter_fresh_key _ _ Hbelow), filter_cons, filter_nil.
  simpl. case_decide; [lia|]. by rewrite app_nil_r.
Qed.

(** [clear] on an open connection returns [True] and empties the table; the
    sequence of keys goes on from where it was: the row of the next [add]
    that returns [True] is alone in the table, under the key that was next
    before [clear]. *)
Theorem clear_empties_table (self : t) (conn : Connection) :
  connection self = Some conn ->
  (clear self).2 = Return true
  /\ connection (clear self).1 = Some {| table := []; next_id := next_id conn |}
  /\ size (clear self).1 = 0%nat
  /\ (forall item w,
        (add svc (clear self).1 item w).1.2 = Return true ->
        exists row,
          connection (add svc (clear self).1 item w).1.1
          = Some {| table := [row]; next_id := next_id conn + 1 |}
          /\ row_id row = next_id conn).
Proof.
  intros Hconn. unfold clear, size. rewrite Hconn. cbn [fst snd connection].
  split; [reflexivity|]. split; [reflexivity|]. split; [reflexivity|].
  intros item w Hret.
  pose proof (add_outcome svc
                {| connection := Some {| table := []; next_id := next_id conn |};
                   embedding_model := embedding_model self;
                   table_name := table_name self;
                   dimension := dimension self |} item w) as H.
  rewrite Hret in H. destruct H as (conn' & emb & Hc & _ & _ & _ & ->).
  cbn [connection] in Hc. injection Hc as <-. simpl. eauto.
Qed.

End VectorDBAdminFacts.

(** [Examples.store0] has an empty table and gives out the key 1 next. *)
Lemma keys_stay_fresh_witness :
  VectorDB.keys_fresh
    (VectorDB.add Examples.svc_up Examples.store0 Examples.item_storm Examples.w0).1.1
  /\ VectorDB.keys_fresh (VectorDB.delete Examples.store0 1).1
  /\ VectorDB.keys_fresh (VectorDB.clear Examples.store0).1.
Proof.
  exact (keys_stay_fresh Examples.svc_up Examples.store0 Examples.item_storm 1
           Examples.w0 (conj (NoDup_nil_2) (Forall_nil_2 _))).
Defined.

(** The key 2 is deleted from the store of three records. *)
Lemma delete_removes_key_witness :
  (VectorDB.delete Examples.store_three 2).2 = Effects.Return true
  /\ exists conn',
       VectorDB.connection (VectorDB.delete Examples.store_three 2).1 = Some conn'
       /\ (forall r, r ∈ VectorDB.table conn' <->
                     r ∈ Examples.table_three /\ VectorDB.row_id r <> 2)
       /\ VectorDB.table conn' `sublist_of` Examples.table_three
       /\ VectorDB.next_id conn' = 4
       /\ (Forall (fun r => VectorDB.row_id r <> 2) Examples.table_three ->
           VectorDB.table conn' = Examples.table_three).
Proof.
  exact (delete_removes_key Examples.store_three
           {| VectorDB.table := Examples.table_three; VectorDB.next_id := 4 |}
           2 eq_refl).
Defined.

(** An item is added to [Examples.store0], the services answering, and its
    key 1 deleted again. *)
Lemma add_then_delete_witness :
  VectorDB.connection
    (VectorDB.delete
       (VectorDB.add Examples.svc_up Examples.store0 Examples.item_storm
          Examples.w0).1.1 1).1
  = Some {| VectorDB.table := []; VectorDB.next_id := 2 |}.
Proof.
  exact (add_then_delete Examples.svc_up Examples.store0
           {| VectorDB.table := []; VectorDB.next_id := 1 |} Examples.item_storm
           Examples.w0 (conj (NoDup_nil_2) (Forall_nil_2 _)) eq_refl eq_refl).
Defined.

(** The store of three records is cleared; the next row gets the key 4. *)
Lemma clear_empties_table_witness :
  (VectorDB.clear Examples.store_three).2 = Effects.Return true
  /\ VectorDB.connection (VectorDB.clear Examples.store_three).1
     = Some {| VectorDB.table := []; VectorDB.next_id := 4 |}
  /\ VectorDB.size (VectorDB.clear Examples.store_three).1 = 0%nat
  /\ (forall item w,
        (VectorDB.add Examples.svc_up (VectorDB.clear Examples.store_three).1
           item w).1.2 = Effects.Return true ->
        exists row,
          VectorDB.connection
            (VectorDB.add Examples.svc_up (VectorDB.clear Examples.store_three).1
               item w).1.1
          = Some {| VectorDB.table := [row]; VectorDB.next_id := 5 |}
          /\ VectorDB.row_id row = 4).
Proof.
  exact (clear_empties_table Examples.svc_up Examples.store_three
           {| VectorDB.table := Examples.table_three; VectorDB.next_id := 4 |}
           eq_refl).
Defined.

(** ** Bounded memory: searching and clearing *)

Section MemorySearchFacts.
Import Py Effects Memory.
Variable svc : Services.
Variable bi : Builtins.t.

Lemma scan_take (query : string) (n : Z) (items : list dict) :
  forall results,
    (length results < Z.to_nat (Z.max 1 n))%nat ->
    scan bi query n items results =
      results ++ take (Z.to_nat (Z.max 1 n) - length results)
                      (filter (fun item => matches bi query item = true) items).
Proof.
  induction items as [|item items IH]; intros results Hlen; simpl.
  - by rewrite filter_nil, take_nil, app_nil_r.
  - rewrite filter_cons. destruct (matches bi query item) eqn:Hm.
    + case_decide; [|congruence]. rewrite length_app. simpl length.
      destruct (Z.leb_spec n (Z.of_nat (length results + 1))) as [Hn|Hn].
      * replace (Z.to_nat (Z.max 1 n) - length results)%nat with 1%nat by lia.
        simpl. by rewrite take_0.
      * rewrite IH by (rewrite length_app; simpl; lia).
        rewrite length_app. simpl length. rewrite <- app_assoc. simpl.
        replace (Z.to_nat (Z.max 1 n) - length results)%nat
          with (S (Z.to_nat (Z.max 1 n) - (length results + 1)))%nat by lia.
        reflexivity.
    + case_decide; [congruence|]. by apply IH.
Qed.

(** Without a store, [search] goes through the buffer and returns its first
    matching items in the order of the buffer: [n] of them at most for
    [n >= 1], and one, not none, for [n <= 0]. No service is called. *)
Theorem search_scans_buffer (self : t) (query : string) (n : Z) (w : World) :
  vector_db self = None ->
  search svc bi self query n w =
    (Return (take (Z.to_nat (Z.max 1 n))
               (filter (fun item => matches bi query item = true)
                       (short_term_memory self))), w).
Proof.
  intros Hnone. unfold search. rewrite Hnone. unfold ret.
  rewrite scan_take by (simpl; lia). simpl. do 3 f_equal. lia.
Qed.

(** With a store attached that has no connection, the memory finds nothing
    and keeps nothing for the long term: [search] returns no item whatever
    the buffer holds, and an important item is added to the buffer only. No
    service is called and nothing is raised. *)
Theorem offline_store_hides_buffer (self : t) (store : VectorDB.t)
    (query : string) (n : Z) (item : dict) (w : World) :
  vector_db self = Some store ->
  VectorDB.connection store = None ->
  search svc bi self query n w = (Return [], w)
  /\ (add svc self item true w).2 = w
  /\ (add svc self item true w).1.2 = Return tt
  /\ vector_db (add svc self item true w).1.1 = Some store.
Proof.
  intros Hstore Hconn. split.
  - unfold search, VectorDB.search. by rewrite Hstore, Hconn.
  - unfold add.
    assert (Hpop : exists x rest,
               pop0 (short_term_memory self ++ [item]) = Some (x, rest)).
    { destruct (short_term_memory self); simpl; eauto. }
    destruct Hpop as (x & rest & ->).
    destruct (max_short_term_items self <? _); simpl; rewrite Hstore;
      unfold bind, ret, VectorDB.add; rewrite Hconn; simpl; done.
Qed.

(** [clear_short_term] empties the buffer and leaves the store alone; the
    items added afterwards fill the buffer as they fill a new memory. *)
Theorem clear_short_term_then_add (self : t) (reqs : list (dict * bool)) (w : World) :
  0 <= max_short_term_items self ->
  vector_db (clear_short_term self) = vector_db self
  /\ get_all_short_term (clear_short_term self) = []
  /\ short_term_memory (add_all svc (clear_short_term self) reqs w).1
     = drop (length reqs - Z.to_nat (max_short_term_items self)) reqs.*1.
Proof.
  intros Hmax. repeat split.
  rewrite add_all_buffer; simpl; try lia. reflexivity.
Qed.

End MemorySearchFacts.

(** Two of the three scenes mention a storm; a search for no result at all
    still returns the first of them. *)
Lemma search_scans_buffer_witness :
  Memory.search Examples.svc_up Examples.builtins Examples.memory_scenes "storm" 0
    Examples.w0
  = (Effects.Return [Examples.scene "storm at sea"], Examples.w0).
Proof.
  exact (search_scans_buffer Examples.svc_up Examples.builtins
           Examples.memory_scenes "storm" 0 Examples.w0 eq_refl).
Defined.

(** The same three scenes, with a store that has no connection. *)
Lemma offline_store_hides_buffer_witness :
  Memory.search Examples.svc_up Examples.builtins Examples.memory_offline "storm" 5
    Examples.w0 = (Effects.Return [], Examples.w0)
  /\ (Memory.add Examples.svc_up Examples.memory_offline Examples.item_storm true
        Examples.w0).2 = Examples.w0
  /\ (Memory.add Examples.svc_up Examples.memory_offline Examples.item_storm true
        Examples.w0).1.2 = Effects.Return tt
  /\ Memory.vector_db
       (Memory.add Examples.svc_up Examples.memory_offline Examples.item_storm true
          Examples.w0).1.1 = Some Examples.store_offline.
Proof.
  exact (offline_store_hides_buffer Examples.svc_up Examples.builtins
           Examples.memory_offline Examples.store_offline "storm" 5
           Examples.item_storm Examples.w0 eq_refl eq_refl).
Defined.

(** The memory of five notes is cleared and two notes are added. *)
Lemma clear_short_term_then_add_witness :
  Memory.vector_db (Memory.clear_short_term Examples.memory_five)
  = Memory.vector_db Examples.memory_five
  /\ Memory.get_all_short_term (Memory.clear_short_term Examples.memory_five) = []
  /\ Memory.short_term_memory
       (Memory.add_all Examples.svc_up (Memory.clear_short_term Examples.memory_five)
          [(Examples.note 6, false); (Examples.note 7, true)] Examples.w0).1
     = [Examples.note 6; Examples.note 7].
Proof.
  exact (clear_short_term_then_add Examples.svc_up Examples.memory_five
           [(Examples.note 6, false); (Examples.note 7, true)] Examples.w0
           ltac:(vm_compute; discriminate)).
Defined.

(** ** Task manager: assigning and decomposing *)

Section AssignFacts.
Import Py Effects TaskManager.
Context {Agent : Type} (run : Agent -> string -> M (Agent * outcome string)).
Variable bi : Builtins.t.

Lemma dict_get_set_other (d : dict) (k k' : string) (v : pyval) :
  k <> k' -> dict_get (dict_set d k v) k' = dict_get d k'.
Proof.
  intros Hne. induction d as [|[k0 v0] d IH]; simpl.
  - destruct (String.eqb_spec k k'); [done | reflexivity].
  - destruct (String.eqb_spec k0 k) as [->|Hk0]; simpl.
    + destruct (String.eqb_spec k k'); [done | reflexivity].
    + destruct (String.eqb_spec k0 k'); [reflexivity | exact IH].
Qed.

(** What [assign_task] leaves behind: the task unchanged when something was
    raised, and otherwise the task with two entries set. *)
Lemma assign_task_result (task : dict) (agent : Agent) (w : World) :
  match (assign_task run bi task agent w).1.2 with
  | Return result =>
      (assign_task run bi task agent w).1.1.1
      = dict_set (dict_set task "status" (PStr "completed")) "result" (PStr result)
  | Raise _ => (assign_task run bi task agent w).1.1.1 = task
  end.
Proof.
  unfold assign_task. destruct (assign_context bi task) as [context|e]; [|reflexivity].
  unfold bind, ret. destruct (run agent context w) as [[agent' [result|e]] w'];
    reflexivity.
Qed.


(** A task of the manager that is assigned with success leaves the pending
    tasks: they are the pending tasks of the list without it, in the same
    order, and the list keeps its length. When the call raises, the manager is
    as before. *)
Theorem assign_task_at_leaves_pending (self : t) (i : nat) (task : dict)
    (agent : Agent) (w : World) :
  tasks self !! i = Some task ->
  match (assign_task_at run bi self i agent w).1.2 with
  | Return _ =>
      get_pending_tasks (assign_task_at run bi self i agent w).1.1.1
      = filter (fun t => is_completed t = false) (delete i (tasks self))
      /\ length (tasks (assign_task_at run bi self i agent w).1.1.1)
         = length (tasks self)
  | Raise _ => (assign_task_at run bi self i agent w).1.1.1 = self
  end.
Proof.
  intros Hi. unfold assign_task_at. rewrite Hi. unfold bind, ret.
  pose proof (assign_task_result task agent w) as Hres.
  destruct (assign_task run bi task agent w) as [[[task' agent'] r] w'].
  simpl in *. destruct r as [result|e].
  - subst task'. split; [|by rewrite length_insert].
    unfold get_pending_tasks. simpl.
    assert (Hlt : (i < length (tasks self))%nat) by (by eapply lookup_lt_Some).
    rewrite insert_take_drop, delete_take_drop by exact Hlt.
    rewrite !filter_app, filter_cons.
    case_decide as Hd; [|reflexivity]. exfalso.
    unfold is_completed in Hd.
    rewrite dict_get_set_other in Hd by discriminate.
    rewrite dict_get_set_same in Hd. discriminate Hd.
  - subst task'. rewrite list_insert_id by exact Hi. by destruct self.
Qed.

End AssignFacts.

Section DecomposeFacts.
Import Py Effects TaskManager.
Variable svc : Services.
Variable bi : Builtins.t.



End DecomposeFacts.

(** An agent that answers with the context it was given. *)
Lemma assign_task_at_leaves_pending_witness :
  TaskManager.get_pending_tasks
    (TaskManager.assign_task_at
       (fun (agent : unit) context => Effects.ret (agent, Effects.Return context))
       Examples.builtins Examples.manager_AB 0 tt Examples.w0).1.1.1
  = [Examples.task_B]
  /\ length (TaskManager.tasks
               (TaskManager.assign_task_at
                  (fun (agent : unit) context =>
                     Effects.ret (agent, Effects.Return context))
                  Examples.builtins Examples.manager_AB 0 tt Examples.w0).1.1.1)
     = 2%nat.
Proof.
  exact (assign_task_at_leaves_pending
           (fun (agent : unit) context => Effects.ret (agent, Effects.Return context))
           Examples.builtins Examples.manager_AB 0 Examples.task_A tt Examples.w0
           eq_refl).
Defined.

(** ** Agents *)

Section BaseAgentFacts.
Import Py Effects BaseAgent.
Variable svc : Services.
Variable bi : Builtins.t.

Lemma remember_tools (self : t) (item : dict) (w : World) :
  tools (remember svc self item w).1.1 = tools self.
Proof.
  unfold remember, bind, ret.
  by destruct (Memory.add svc (memory self) item false w) as [[m r] w'].
Qed.

Lemma think_tools (self : t) (context : string) (w : World) :
  tools (think svc bi self context w).1.1 = tools self.
Proof.
  unfold think, bind, ret.
  destruct (Memory.search svc bi (memory self) context 5 w) as [[found|e] w1];
    [|reflexivity].
  destruct (LLMInterface.generate svc (llm self) _ _ _ w1) as [[thought|e] w2];
    [|reflexivity].
  pose proof (remember_tools self
                [("type", PStr "thought"); ("content", PStr thought)] w2) as Ht.
  by destruct (remember svc self _ w2) as [[s r] w3].
Qed.

Lemma act_tools (self : t) (thought : string) (w : World) :
  tools (act svc bi self thought w).1.1 = tools self.
Proof.
  unfold act, bind, ret.
  destruct (LLMInterface.generate svc (llm self) _ _ _ w) as [[action_json|e] w1];
    [|reflexivity].
  destruct (parse_action bi action_json thought) as [action|e]; [|reflexivity].
  pose proof (remember_tools self
                [("type", PStr "action"); ("content", PStr (str_action bi action))]
                w1) as Ht.
  by destruct (remember svc self _ w1) as [[s r] w2].
Qed.

(** Without a registered tool no action can be executed. *)
Lemma execute_action_without_tools (self : t) (action : Action) (w : World) :
  tools self = [] ->
  exists e, execute_action bi self action w = (Raise e, w).
Proof.
  intros Hnone. unfold execute_action. rewrite Hnone.
  destruct (tool action); simpl; eauto.
Qed.

Lemma run_without_tools (self : t) (context : string) (w : World) :
  tools self = [] ->
  exists e, (run svc bi self context w).1.2 = Raise e.
Proof.
  intros Hnone. unfold run, bind.
  pose proof (remember_tools self
                [("type", PStr "context"); ("content", PStr context)] w) as H0.
  destruct (remember svc self _ w) as [[s0 [u|e]] w0]; simpl in *; [|eauto].
  pose proof (think_tools s0 context w0) as H1.
  destruct (think svc bi s0 context w0) as [[s1 [thought|e]] w1]; simpl in *;
    [|eauto].
  pose proof (act_tools s1 thought w1) as H2.
  destruct (act svc bi s1 thought w1) as [[s2 [action|e]] w2]; simpl in *;
    [|eauto].
  destruct (execute_action_without_tools s2 action w2) as [e He]; [congruence|].
  rewrite He. simpl. eauto.
Qed.

(** An agent as the constructor makes it has no tool, so its [run] never
    returns: whatever the context and whatever the services answer, the call
    ends with an exception. *)
Theorem new_agent_run_raises (agent_name agent_role : string) (llm_config : dict)
    (context : string) (w : World) :
  exists e,
    (run svc bi (init agent_name agent_role llm_config) context w).1.2 = Raise e.
Proof. by apply run_without_tools. Qed.

(** A task assigned to an agent without tools is never completed: the call
    raises and the task is as it was. *)
Theorem assign_task_to_agent_without_tools (task : dict) (agent : t) (w : World) :
  tools agent = [] ->
  (TaskManager.assign_task (run svc bi) bi task agent w).1.1.1 = task
  /\ exists e,
       (TaskManager.assign_task (run svc bi) bi task agent w).1.2 = Raise e.
Proof.
  intros Hnone. unfold TaskManager.assign_task.
  destruct (TaskManager.assign_context bi task) as [context|e]; [|simpl; eauto].
  unfold bind, ret.
  destruct (run_without_tools agent context w Hnone) as [e He].
  destruct (run svc bi agent context w) as [[agent' r] w']. simpl in He. subst r.
  simpl. eauto.
Qed.

Lemma lookup_set_tool_same (l : list (string * Tool)) (k : string) (f : Tool) :
  lookup_tool (set_tool l k f) k = Some f.
Proof.
  induction l as [|[k' f'] l IH]; simpl.
  - by rewrite String.eqb_refl.
  - destruct (String.eqb k' k) eqn:E; simpl; rewrite E; [reflexivity | exact IH].
Qed.

Lemma lookup_set_tool_other (l : list (string * Tool)) (k k' : string) (f : Tool) :
  k <> k' -> lookup_tool (set_tool l k f) k' = lookup_tool l k'.
Proof.
  intros Hne. induction l as [|[k0 f0] l IH]; simpl.
  - destruct (String.eqb_spec k k'); [done | reflexivity].
  - destruct (String.eqb_spec k0 k) as [->|Hk0]; simpl.
    + destruct (String.eqb_spec k k'); [done | reflexivity].
    + destruct (String.eqb_spec k0 k'); [reflexivity | exact IH].
Qed.

(** A registered tool is the one that [execute_action] calls for an action
    that names it, with the arguments of the action as keyword arguments; a
    second registration under the same name replaces the first, and the tools
    under other names are not affected. *)
Theorem register_tool_then_execute (self : t) (tool_name : string) (f g : Tool)
    (kwargs : dict) (thought_text : string) (w : World) :
  execute_action bi (register_tool self tool_name f)
    {| tool := PStr tool_name; args := PDict kwargs; thought := thought_text |} w
  = call f kwargs w
  /\ execute_action bi (register_tool (register_tool self tool_name g) tool_name f)
       {| tool := PStr tool_name; args := PDict kwargs; thought := thought_text |} w
     = call f kwargs w
  /\ (forall other, other <> tool_name ->
        lookup_tool (tools (register_tool self tool_name f)) other
        = lookup_tool (tools self) other).
Proof.
  unfold execute_action. simpl. rewrite !lookup_set_tool_same.
  repeat split. intros other Hne. by apply lookup_set_tool_other.
Qed.

End BaseAgentFacts.

(** [Examples.planner] is given the first task of [Examples.manager_AB]. *)
Lemma assign_task_to_agent_without_tools_witness :
  (TaskManager.assign_task (BaseAgent.run Examples.svc_up Examples.builtins)
     Examples.builtins Examples.task_A Examples.planner Examples.w0).1.1.1
  = Examples.task_A
  /\ exists e,
       (TaskManager.assign_task (BaseAgent.run Examples.svc_up Examples.builtins)
          Examples.builtins Examples.task_A Examples.planner Examples.w0).1.2
       = Effects.Raise e.
Proof.
  exact (assign_task_to_agent_without_tools Examples.svc_up Examples.builtins
           Examples.task_A Examples.planner Examples.w0 eq_refl).
Defined.

(** ** Coordinator *)

Section AgentCoordinatorFacts.
Import Py Effects AgentCoordinator.
Variable svc : Services.
Variable bi : Builtins.t.

Lemma lookup_set_agent_same (l : list (string * BaseAgent.t)) (k : string)
    (a : BaseAgent.t) :
  lookup_agent (set_agent l k a) k = Some a.
Proof.
  induction l as [|[k' a'] l IH]; simpl.
  - by rewrite String.eqb_refl.
  - destruct (String.eqb k' k) eqn:E; simpl; rewrite E; [reflexivity | exact IH].
Qed.

Lemma lookup_set_agent_other (l : list (string * BaseAgent.t)) (k k' : string)
    (a : BaseAgent.t) :
  k <> k' -> lookup_agent (set_agent l k a) k' = lookup_agent l k'.
Proof.
  intros Hne. induction l as [|[k0 a0] l IH]; simpl.
  - destruct (String.eqb_spec k k'); [done | reflexivity].
  - destruct (String.eqb_spec k0 k) as [->|Hk0]; simpl.
    + destruct (String.eqb_spec k k'); [done | reflexivity].
    + destruct (String.eqb_spec k0 k'); [reflexivity | exact IH].
Qed.

Lemma set_agent_names (l : list (string * BaseAgent.t)) (k : string)
    (a : BaseAgent.t) :
  (k ∈ l.*1 -> (set_agent l k a).*1 = l.*1)
  /\ (k ∉ l.*1 -> (set_agent l k a).*1 = l.*1 ++ [k]).
Proof.
  induction l as [|[k0 a0] l [IHin IHout]].
  - split; [intros Hin; by apply elem_of_nil in Hin | reflexivity].
  - cbn [set_agent]. destruct (String.eqb_spec k0 k) as [->|Hk0].
    + split; [reflexivity|]. intros Hout. exfalso. apply Hout. by left.
    + split.
      * rewrite !fmap_cons. intros Hin.
        apply elem_of_cons in Hin as [Heq|Hin]; [by symmetry in Heq|].
        f_equal. by apply IHin.
      * rewrite !fmap_cons. intros Hout. simpl. f_equal. apply IHout.
        intros Hin. apply Hout. by right.
Qed.

(** A registered agent is the one that [get_agent] returns for its name; the
    agents under other names are not affected. An agent registered under a
    name already taken replaces the earlier one at its place, a new name goes
    last, and the names listed stay pairwise distinct. *)
Theorem register_agent_then_get_agent (self : t) (agent : BaseAgent.t) :
  get_agent (register_agent self agent) (BaseAgent.name agent) = Some agent
  /\ (forall other, other <> BaseAgent.name agent ->
        get_agent (register_agent self agent) other = get_agent self other)
  /\ list_agents (register_agent self agent)
     = (if decide (BaseAgent.name agent ∈ list_agents self)
        then list_agents self
        else list_agents self ++ [BaseAgent.name agent])
  /\ (NoDup (list_agents self) -> NoDup (list_agents (register_agent self agent))).
Proof.
  unfold get_agent, register_agent, list_agents. simpl.
  split; [apply lookup_set_agent_same|].
  split; [intros other Hne; by apply lookup_set_agent_other|].
  destruct (set_agent_names (agents self) (BaseAgent.name agent) agent)
    as [Hin Hout].
  split; [case_decide; auto|].
  intros Hnd. destruct (decide (BaseAgent.name agent ∈ (agents self).*1)) as [H|H].
  - by rewrite Hin.
  - rewrite Hout by exact H.
    apply NoDup_app. split; [exact Hnd|]. split; [|apply NoDup_singleton].
    intros x Hx Hx'. apply list_elem_of_singleton in Hx'. by subst x.
Qed.

(** What the loop of [broadcast] keeps: the names, in their order, and the
    agent of the sender. *)
Lemma broadcast_loop_keeps (from_agent message : string)
    (todo : list (string * BaseAgent.t)) :
  forall responses w,
    (broadcast_loop svc bi from_agent message todo responses w).1.1.*1 = todo.*1
    /\ lookup_agent (broadcast_loop svc bi from_agent message todo responses w).1.1
         from_agent
       = lookup_agent todo from_agent.
Proof.
  induction todo as [|[k a] todo IH]; intros responses w; [done|].
  simpl. destruct (String.eqb_spec k from_agent) as [->|Hk].
  - unfold bind, ret. specialize (IH responses w).
    destruct (broadcast_loop svc bi from_agent message todo responses w)
      as [[l r] w']. simpl in *. rewrite String.eqb_refl.
    destruct IH as [IHn _]. split; [f_equal; exact IHn | reflexivity].
  - unfold bind, ret.
    destruct (BaseAgent.run svc bi a _ w) as [[a' [response|e]] w1]; simpl.
    + specialize (IH (dict_set responses k (PStr response)) w1).
      destruct (broadcast_loop svc bi from_agent message todo _ w1)
        as [[l r] w']. simpl in *.
      destruct (String.eqb_spec k from_agent); [done|].
      destruct IH as [IHn IHs]. split; [f_equal; exact IHn | exact IHs].
    + destruct (String.eqb_spec k from_agent); [done|]. done.
Qed.

(** [broadcast] never runs the sender: the agent registered under the name of
    the sender is afterwards as it was before, whether the broadcast returns
    or is ended by an exception; the names of the registered agents and their
    order are kept as well. *)
Theorem broadcast_spares_sender (self : t) (from_agent message : string) (w : World) :
  get_agent (broadcast svc bi self from_agent message w).1.1 from_agent
  = get_agent self from_agent
  /\ list_agents (broadcast svc bi self from_agent message w).1.1
     = list_agents self.
Proof.
  unfold broadcast, get_agent, list_agents, bind, ret.
  destruct (broadcast_loop_keeps from_agent message (agents self) [] w)
    as [Hnames Hsender].
  destruct (broadcast_loop svc bi from_agent message (agents self) [] w)
    as [[l r] w']. simpl in *. by split.
Qed.

End AgentCoordinatorFacts.

(** ** The agents at work *)

(** An agent that has a tool under the name ["default_tool"] completes its
    run: the answer of the service is not JSON, the default action is taken
    and the tool returns its message. *)
Example run_with_default_tool :
  (BaseAgent.run Examples.svc_up Examples.builtins
     (BaseAgent.register_tool Examples.planner "default_tool" Examples.echo_tool)
     "Outline the novel" Examples.w0).1.2
  = Effects.Return "Failed to parse action".
Proof. vm_compute. reflexivity. Qed.

(** A broadcast from the planner reaches the editor, which has no tool. *)
Example broadcast_to_agent_without_tools :
  (AgentCoordinator.broadcast Examples.svc_up Examples.builtins Examples.coordinator
     "Planner" "The outline is ready" Examples.w0).1.2
  = Effects.Raise {| Effects.exn_class := "Exception";
                     Effects.exn_str := "Tool default_tool not found" |}.
Proof. vm_compute. reflexivity. Qed.
